(** * Competitive_Analysis: a shallow embedding of the scraping pipeline

    The Python package [competitive_analysis] is embedded module by module:
    [models.py] as records, [config.py] as operations on a one-file store,
    [analyzers/*.py] as programs in a small state-and-exception monad over a
    world made of a monotonic clock and a log of outbound requests,
    [cli._run_analysis] as the loop over the requested kinds and
    [exporters.export_csv] as the list of rows handed to [csv.writer].

    Python [str] values are Rocq strings read as sequences of code points
    below 256; Python [int] and clock readings are [Z] (clock readings count
    milliseconds); [dict]s whose order is irrelevant are [gmap]s, the
    insertion-ordered [og_tags] dict is an association list. *)

From Stdlib Require Import Ascii String ZArith Lia.
From stdpp Require Import gmap strings list pretty.

Set Warnings "-register-all".

Open Scope string_scope.
Open Scope Z_scope.

(** ** Python [str] methods used by the package *)

Module Py.
Definition code (c : ascii) : N := N_of_ascii c.

(** [str.isspace] on one code point below 256. *)
Definition isspace (c : ascii) : bool :=
  let n := code c in
  (((9 <=? n) && (n <=? 13)) || ((28 <=? n) && (n <=? 32))
   || (n =? 133) || (n =? 160))%N.

Fixpoint lstrip (s : string) : string :=
  match s with
  | String c r => if isspace c then lstrip r else s
  | EmptyString => EmptyString
  end.

Fixpoint rstrip (s : string) : string :=
  match s with
  | EmptyString => EmptyString
  | String c r =>
      match rstrip r with
      | EmptyString => if isspace c then EmptyString else String c EmptyString
      | r' => String c r'
      end
  end.

(** [s.strip()] *)
Definition strip (s : string) : string := rstrip (lstrip s).

(** [s.lstrip(chars)] for a one-character [chars] *)
Fixpoint lstrip_char (x : ascii) (s : string) : string :=
  match s with
  | String c r => if Ascii.eqb c x then lstrip_char x r else s
  | EmptyString => EmptyString
  end.

(** [str.lower] on one code point below 256: the ASCII capitals and the
    Latin-1 capitals (U+00C0..U+00DE but the multiplication sign). *)
Definition lower_char (c : ascii) : ascii :=
  let n := code c in
  if (((65 <=? n) && (n <=? 90))
      || ((192 <=? n) && (n <=? 222) && negb (n =? 215)))%N
  then ascii_of_N (n + 32) else c.

Fixpoint lower (s : string) : string :=
  match s with
  | EmptyString => EmptyString
  | String c r => String (lower_char c) (lower r)
  end.

(** [sub in s] *)
Fixpoint contains (sub s : string) : bool :=
  String.prefix sub s
  || match s with
     | EmptyString => false
     | String _ r => contains sub r
     end.

(** [s.split(sep)] for a one-character separator *)
Fixpoint split (sep : ascii) (s : string) : list string :=
  match s with
  | EmptyString => [EmptyString]
  | String c r =>
      if Ascii.eqb c sep then EmptyString :: split sep r
      else match split sep r with
           | h :: t => String c h :: t
           | [] => [String c EmptyString]
           end
  end.

(** The runs of characters of [s] that are not white space, in order. *)
Fixpoint words (s : string) : list string :=
  match s with
  | EmptyString => []
  | String c r =>
      if isspace c then words r
      else match r with
           | EmptyString => [String c EmptyString]
           | String c' _ =>
               if isspace c' then String c EmptyString :: words r
               else match words r with
                    | w :: ws => String c w :: ws
                    | [] => [String c EmptyString]
                    end
           end
  end.

(** [sep.join(l)] *)
Fixpoint join (sep : string) (l : list string) : string :=
  match l with
  | [] => EmptyString
  | [x] => x
  | x :: t => x +:+ sep +:+ join sep t
  end.

(** [s[:n]] *)
Fixpoint take (n : nat) (s : string) : string :=
  match n, s with
  | S n', String c r => String c (take n' r)
  | _, _ => EmptyString
  end.

(** [str(i)] for an [int] *)
Definition str_int (i : Z) : string := pretty i.

(** [str(b)] for a [bool] *)
Definition str_bool (b : bool) : string := if b then "True" else "False".

(** truthiness of a [str] *)
Definition truthy (s : string) : bool :=
  match s with EmptyString => false | _ => true end.

(** truthiness of an optional [str]: [None] and [""] are falsy *)
Definition truthy_opt (o : option string) : bool :=
  match o with Some s => truthy s | None => false end.

(** [o or ""] for an optional [str] *)
Definition or_empty (o : option string) : string :=
  match o with Some s => s | None => EmptyString end.

End Py.

(** ** models.py *)

(** [datetime.datetime]: calendar fields and the offset of an aware value
    (seconds east of UTC), [None] for a naive one. *)
Record datetime := {
  year : Z; month : Z; day : Z;
  hour : Z; minute : Z; second : Z; microsecond : Z;
  utcoffset : option Z
}.

(** A decoded JSON document ([Any] in [structured_data]). *)
Inductive json :=
| JNull
| JBool (b : bool)
| JNumber (n : Z)
| JString (s : string)
| JArray (items : list json)
| JObject (members : list (string * json)).

(** [url] holds the text of a validated [HttpUrl]. *)
Record Competitor := {
  name : string;
  url : option string;
  twitter : option string;
  linkedin : option string;
  created_at : datetime
}.

Record WebAnalysisResult := {
  title : option string;
  description : option string;
  headings : list string;
  links_count : Z;
  images_count : Z;
  technologies : list string;
  page_size_bytes : Z;
  load_time_ms : Z
}.

Record SEOAnalysisResult := {
  meta_title : option string;
  meta_description : option string;
  meta_keywords : list string;
  h1_tags : list string;
  h2_tags : list string;
  canonical_url : option string;
  robots_meta : option string;
  og_tags : list (string * string);
  structured_data : list json
}.

Record NewsItem := {
  item_title : string;
  item_url : string;
  source : option string;
  published_at : option datetime;
  snippet : option string
}.

Record NewsAnalysisResult := {
  items : list NewsItem;
  total_mentions : Z
}.

(** [NewsAnalysisResult()] *)
Definition NewsAnalysisResult_default : NewsAnalysisResult :=
  {| items := []; total_mentions := 0 |}.

Record SocialProfile := {
  platform : string;
  handle : string;
  followers : option Z;
  following : option Z;
  posts_count : option Z;
  bio : option string;
  verified : bool
}.

(** [SocialProfile(platform=p, handle=h)] with the remaining defaults *)
Definition SocialProfile_default (p h : string) : SocialProfile :=
  {| platform := p; handle := h; followers := None; following := None;
     posts_count := None; bio := None; verified := false |}.

Record SocialAnalysisResult := {
  profiles : list SocialProfile
}.

Record AnalysisResult := {
  competitor_name : string;
  analyzed_at : datetime;
  web : option WebAnalysisResult;
  seo : option SEOAnalysisResult;
  news : option NewsAnalysisResult;
  social : option SocialAnalysisResult
}.

(** ** config.py *)

Record Config := {
  competitors : gmap string Competitor;
  default_output_dir : string;
  rate_limit_delay : Z
}.

(** [Config()]: the delay of 1.0 second is 1000 clock ticks. *)
Definition Config_default : Config :=
  {| competitors := ∅; default_output_dir := "./output";
     rate_limit_delay := 1000 |}.

(** The part of the file system the package touches: whether [CONFIG_DIR]
    exists, the decoded content of [CONFIG_FILE] when it exists, and how many
    times the file has been written. Dumping a [Config] to JSON and
    validating it back is taken to give the same [Config]. *)
Record Store := {
  config_dir : bool;
  config_file : option Config;
  writes : nat
}.

Definition ensure_config_dir (st : Store) : Store :=
  {| config_dir := true; config_file := config_file st; writes := writes st |}.

Definition load_config (st : Store) : Config * Store :=
  let st := ensure_config_dir st in
  match config_file st with
  | Some data => (data, st)
  | None => (Config_default, st)
  end.

Definition save_config (config : Config) (st : Store) : Store :=
  let st := ensure_config_dir st in
  {| config_dir := config_dir st; config_file := Some config;
     writes := S (writes st) |}.

Definition set_competitors (config : Config) (m : gmap string Competitor) : Config :=
  {| competitors := m; default_output_dir := default_output_dir config;
     rate_limit_delay := rate_limit_delay config |}.

Definition add_competitor (competitor : Competitor) (st : Store) : Store :=
  let '(config, st) := load_config st in
  let config :=
    set_competitors config (<[name competitor := competitor]> (competitors config)) in
  save_config config st.

Definition get_competitor (n : string) (st : Store) : option Competitor * Store :=
  let '(config, st) := load_config st in
  (competitors config !! n, st).

Definition remove_competitor (n : string) (st : Store) : bool * Store :=
  let '(config, st) := load_config st in
  match competitors config !! n with
  | Some _ =>
      let config := set_competitors config (delete n (competitors config)) in
      (true, save_config config st)
  | None => (false, st)
  end.

(** [list(config.competitors.values())]. The dict lists its values in
    insertion order; the finite map forgets that order, so only the content
    of the list is meaningful here. *)
Definition list_competitors (st : Store) : list Competitor * Store :=
  let '(config, st) := load_config st in
  (map snd (map_to_list (competitors config)), st).

(** ** The parsed documents the analyzers query *)

(** A BeautifulSoup tree: text nodes and tags with their attributes and
    contents. The [BeautifulSoup] object itself is the root tag. *)
Inductive node :=
| NavigableString (s : string)
| Tag (tag_name : string) (attrs : list (string * string)) (contents : list node).

Module Soup.

(** [tag.descendants]: every node below [n], in document order. *)
Fixpoint descendants (n : node) : list node :=
  match n with
  | NavigableString _ => []
  | Tag _ _ cs =>
      (fix below (l : list node) : list node :=
         match l with
         | [] => []
         | c :: l' => c :: descendants c ++ below l'
         end) cs
  end.

(** [tag.get(key)] *)
Fixpoint lookup_attr (key : string) (l : list (string * string)) : option string :=
  match l with
  | [] => None
  | (k, v) :: l' => if String.eqb k key then Some v else lookup_attr key l'
  end.

Definition get (n : node) (key : string) : option string :=
  match n with
  | NavigableString _ => None
  | Tag _ a _ => lookup_attr key a
  end.

Definition is_tag (nm : string) (n : node) : bool :=
  match n with
  | NavigableString _ => false
  | Tag t _ _ => String.eqb t nm
  end.

(** [soup.find_all(nm)] *)
Definition find_all (nm : string) (soup : node) : list node :=
  List.filter (is_tag nm) (descendants soup).

(** [soup.find_all(nm, attrs)] with a test on the attributes *)
Definition find_all_where (nm : string) (p : node -> bool) (soup : node) : list node :=
  List.filter (fun n => is_tag nm n && p n) (descendants soup).

(** [soup.find(nm, attrs)]: the first match of [find_all], or [None] *)
Definition find_where (nm : string) (p : node -> bool) (soup : node) : option node :=
  head (find_all_where nm p soup).

(** the test [attrs={key: value}] *)
Definition attr_is (key value : string) (n : node) : bool :=
  match get n key with
  | Some v => String.eqb v value
  | None => false
  end.

(** the test [attrs={key: value}] on an attribute that holds a list of
    tokens, as [rel] does on a [link]: one of the tokens is [value] *)
Definition attr_has_token (key value : string) (n : node) : bool :=
  match get n key with
  | Some v => existsb (String.eqb value) (Py.words v)
  | None => false
  end.

(** the test [key=True]: the attribute is present *)
Definition has_attr (key : string) (n : node) : bool :=
  match get n key with Some _ => true | None => false end.

(** [soup.find(nm)] *)
Definition find (nm : string) (soup : node) : option node :=
  head (find_all nm soup).

(** [tag.string]: the only child when it is text, or that child's own
    [.string] when it is a tag. *)
Fixpoint string_of (n : node) : option string :=
  match n with
  | NavigableString s => Some s
  | Tag _ _ [c] => string_of c
  | Tag _ _ _ => None
  end.

Definition text_of (n : node) : list string :=
  match n with NavigableString s => [s] | Tag _ _ _ => [] end.

(** [tag.get_text(strip=True)]: the descendant strings, each stripped, the
    empty ones dropped, joined without a separator. *)
Definition get_text_strip (n : node) : string :=
  Py.join "" (List.filter Py.truthy
                (map Py.strip (flat_map text_of (descendants n)))).

End Soup.

(** An [xml.etree.ElementTree.Element]. *)
Inductive Element :=
| Elem (tag : string) (text : option string) (children : list Element).

Module ET.

Definition tag_of (e : Element) : string := let 'Elem t _ _ := e in t.
Definition text (e : Element) : option string := let 'Elem _ x _ := e in x.
Definition children (e : Element) : list Element := let 'Elem _ _ c := e in c.

(** [e.findall(nm)]: the direct children named [nm] *)
Definition findall (nm : string) (e : Element) : list Element :=
  List.filter (fun c => String.eqb (tag_of c) nm) (children e).

(** [e.find(nm)] *)
Definition find (nm : string) (e : Element) : option Element :=
  head (findall nm e).

End ET.

(** ** The world the analyzers run in *)

Record Response := {
  status_code : Z;
  resp_text : string;
  content : string
}.

(** What lies outside the package: the network, the event loop's timer and
    the library parsers. [http_get url] gives the time the exchange takes
    and the response, [None] for a transport failure; [sleep_lag] is by how
    much [asyncio.sleep] oversleeps. *)
Record Env := {
  http_get : string -> Z * option Response;
  sleep_lag : Z;
  BeautifulSoup : string -> node;
  fromstring : string -> option Element;
  strptime : string -> string -> option datetime;
  json_loads : string -> option json;
  quote_plus : string -> string;
  datetime_now : Z -> datetime;
  isoformat : datetime -> string
}.

(** One outbound request: when it was issued, by the analyzer of which
    name, to which address. *)
Record Request := {
  req_time : Z;
  req_by : string;
  req_url : string
}.

Record World := {
  clock : Z;
  store : Store;
  requests : list Request
}.

Inductive exn :=
| TransportError
| HTTPStatusError (status : Z).

Inductive outcome (A : Type) :=
| Return (a : A)
| Raise (e : exn).
Arguments Return {A} a.
Arguments Raise {A} e.

(** Programs over a state [S] that may raise. *)
Definition M (S A : Type) : Type := S -> outcome A * S.

Definition ret {S A} (a : A) : M S A := fun s => (Return a, s).
Definition raise {S A} (e : exn) : M S A := fun s => (Raise e, s).
Definition bind {S A B} (m : M S A) (k : A -> M S B) : M S B :=
  fun s => match m s with
           | (Return a, s') => k a s'
           | (Raise e, s') => (Raise e, s')
           end.
(** [try: m  except Exception: h] *)
Definition try_except {S A} (m : M S A) (h : M S A) : M S A :=
  fun s => match m s with
           | (Return a, s') => (Return a, s')
           | (Raise _, s') => h s'
           end.
Definition gets {S A} (f : S -> A) : M S A := fun s => (Return (f s), s).
Definition modify {S} (f : S -> S) : M S unit := fun s => (Return tt, f s).

Notation "x <~ m ;; k" := (bind m (fun x => k))
  (at level 100, m at next level, right associativity).
Notation "m ;;; k" := (bind m (fun _ => k))
  (at level 100, right associativity).

(** ** analyzers/base.py *)

(** A [BaseAnalyzer] instance: the name its subclass gives it and its two
    attributes. *)
Record Analyzer := {
  analyzer_name : string;
  _config : Config;
  _last_request_time : Z
}.

(** The state of a method call: the instance [self] and the world. *)
Definition AS : Type := Analyzer * World.

Definition set_clock (t : Z) (w : World) : World :=
  {| clock := t; store := store w; requests := requests w |}.

Definition set_store (st : Store) (w : World) : World :=
  {| clock := clock w; store := st; requests := requests w |}.

Definition log_request (r : Request) (w : World) : World :=
  {| clock := clock w; store := store w; requests := requests w ++ [r] |}.

Definition set_last_request_time (t : Z) (self : Analyzer) : Analyzer :=
  {| analyzer_name := analyzer_name self; _config := _config self;
     _last_request_time := t |}.

(** [BaseAnalyzer.__init__] for the subclass named [nm] *)
Definition new_analyzer (nm : string) : M World Analyzer :=
  fun w =>
    let '(config, st) := load_config (store w) in
    (Return {| analyzer_name := nm; _config := config; _last_request_time := 0 |},
     set_store st w).

(** [2xx], the statuses [raise_for_status] lets through *)
Definition is_success (r : Response) : bool :=
  (200 <=? status_code r) && (status_code r <? 300).

Section Analyzers.

Variable env : Env.

(** [asyncio.get_event_loop().time()] and [time.monotonic()] *)
Definition loop_time : M AS Z := gets (fun s => clock (snd s)).

(** [await asyncio.sleep(d)] *)
Definition sleep (d : Z) : M AS unit :=
  modify (fun s => (fst s, set_clock (clock (snd s) + d + sleep_lag env) (snd s))).

Definition _rate_limit : M AS unit :=
  delay <~ gets (fun s => rate_limit_delay (_config (fst s))) ;;
  current_time <~ loop_time ;;
  last <~ gets (fun s => _last_request_time (fst s)) ;;
  let elapsed := current_time - last in
  (if elapsed <? delay then sleep (delay - elapsed) else ret tt) ;;;
  t <~ loop_time ;;
  modify (fun s => (set_last_request_time t (fst s), snd s)).

(** [client.get(url, ...)]: the request leaves now and the answer, or the
    transport failure, arrives after the exchange's latency. *)
Definition client_get (u : string) : M AS Response :=
  modify (fun s =>
    (fst s,
     log_request {| req_time := clock (snd s);
                    req_by := analyzer_name (fst s);
                    req_url := u |} (snd s))) ;;;
  let '(latency, answer) := http_get env u in
  modify (fun s => (fst s, set_clock (clock (snd s) + latency) (snd s))) ;;;
  match answer with
  | Some response => ret response
  | None => raise TransportError
  end.

Definition fetch_url (u : string) : M AS Response :=
  _rate_limit ;;;
  response <~ client_get u ;;
  if is_success response then ret response
  else raise (HTTPStatusError (status_code response)).

(** ** analyzers/web.py *)

Definition tech_signatures : list (string * list string) :=
  [ ("React", ["react"; "_reactRootContainer"; "data-reactroot"]);
    ("Vue.js", ["vue"; "__vue__"; "data-v-"]);
    ("Angular", ["ng-"; "angular"; "_ngcontent"]);
    ("jQuery", ["jquery"; "jQuery"]);
    ("Bootstrap", ["bootstrap"]);
    ("Tailwind", ["tailwind"]);
    ("WordPress", ["wp-content"; "wp-includes"]);
    ("Shopify", ["shopify"; "cdn.shopify"]);
    ("Next.js", ["_next"; "__NEXT_DATA__"]);
    ("Gatsby", ["gatsby"]) ].

(** The list [technologies] the two loops build: the inner loop stops at
    the first signature found. *)
Definition detected (html : string) : list string :=
  let html_lower := Py.lower html in
  flat_map (fun '(tech, signatures) =>
              if existsb (fun sig => Py.contains (Py.lower sig) html_lower) signatures
              then [tech] else [])
           tech_signatures.

(** [list(set(technologies))]: the elements of the set, in an order the
    package does not choose. *)
Definition _detect_technologies (soup : node) (html : string) : list string :=
  elements (list_to_set (detected html) : gset string).

(** The list [headings] the two nested loops build, before the cap. *)
Definition collect_headings (soup : node) : list string :=
  flat_map (fun tag =>
              flat_map (fun heading =>
                          let text := Soup.get_text_strip heading in
                          if Py.truthy text then [tag +:+ ": " +:+ text] else [])
                       (Soup.find_all tag soup))
           ["h1"; "h2"; "h3"].

Definition page_title (soup : node) : option string :=
  match Soup.find "title" soup with
  | Some t => Soup.string_of t
  | None => None
  end.

(** [soup.find("meta", attrs={"name": nm})] and its [content], kept when
    the tag is there and the content is not empty *)
Definition meta_content (nm : string) (soup : node) : option string :=
  match Soup.find_where "meta" (Soup.attr_is "name" nm) soup with
  | Some m => if Py.truthy_opt (Soup.get m "content") then Soup.get m "content" else None
  | None => None
  end.

Definition len {A} (l : list A) : Z := Z.of_nat (length l).

Definition web_analyze (competitor : Competitor) : M AS (option WebAnalysisResult) :=
  match url competitor with
  | None => ret None
  | Some u =>
      start_time <~ loop_time ;;
      response <~ fetch_url u ;;
      end_time <~ loop_time ;;
      let load_time := end_time - start_time in
      let soup := BeautifulSoup env (resp_text response) in
      ret (Some {| title := page_title soup;
                   description := meta_content "description" soup;
                   headings := take 20 (collect_headings soup);
                   links_count := len (Soup.find_all_where "a" (Soup.has_attr "href") soup);
                   images_count := len (Soup.find_all "img" soup);
                   technologies := _detect_technologies soup (resp_text response);
                   page_size_bytes := len (list_ascii_of_string (content response));
                   load_time_ms := load_time |})
  end.

(** ** analyzers/seo.py *)

(** [d[k] = v] on an insertion-ordered dict: a key already there keeps its
    place and takes the new value. *)
Fixpoint dict_set (k v : string) (d : list (string * string)) : list (string * string) :=
  match d with
  | [] => [(k, v)]
  | (k', v') :: d' =>
      if String.eqb k' k then (k, v) :: d' else (k', v') :: dict_set k v d'
  end.

(** [get(key, "")] *)
Definition get_or_empty (n : node) (key : string) : string :=
  Py.or_empty (Soup.get n key).

(** The loop over the [meta] tags whose [property] starts with [og:]. *)
Definition collect_og_tags (soup : node) : list (string * string) :=
  fold_left (fun og og_tag =>
               let prop := get_or_empty og_tag "property" in
               let cont := get_or_empty og_tag "content" in
               if Py.truthy prop && Py.truthy cont then dict_set prop cont og else og)
            (Soup.find_all_where "meta"
               (fun n => match Soup.get n "property" with
                         | Some v => String.prefix "og:" v
                         | None => false
                         end) soup)
            [].

(** The loop over the JSON-LD scripts: a block that does not decode is
    passed over. *)
Definition collect_structured_data (soup : node) : list json :=
  flat_map (fun script =>
              match json_loads env (Py.or_empty (Soup.string_of script)) with
              | Some data => [data]
              | None => []
              end)
           (Soup.find_all_where "script" (Soup.attr_is "type" "application/ld+json") soup).

(** [soup.find("link", attrs={"rel": "canonical"})] and its [href]. The
    parser keeps [rel] as the list of its tokens, and the search accepts a
    tag one of whose tokens is [canonical]. *)
Definition canonical_href (soup : node) : option string :=
  match Soup.find_where "link" (Soup.attr_has_token "rel" "canonical") soup with
  | Some l => if Py.truthy_opt (Soup.get l "href") then Soup.get l "href" else None
  | None => None
  end.

Definition keywords_of (soup : node) : list string :=
  match meta_content "keywords" soup with
  | Some c => map Py.strip (Py.split "," c)
  | None => []
  end.

(** The record [SEOAnalyzer.analyze] builds from the parsed page. *)
Definition seo_of_soup (soup : node) : SEOAnalysisResult :=
  let h1 := map Soup.get_text_strip (Soup.find_all "h1" soup) in
  let h2 := map Soup.get_text_strip (Soup.find_all "h2" soup) in
  {| meta_title := page_title soup;
     meta_description := meta_content "description" soup;
     meta_keywords := keywords_of soup;
     h1_tags := h1;
     h2_tags := take 10 h2;
     canonical_url := canonical_href soup;
     robots_meta := meta_content "robots" soup;
     og_tags := collect_og_tags soup;
     structured_data := take 5 (collect_structured_data soup) |}.

Definition seo_analyze (competitor : Competitor) : M AS (option SEOAnalysisResult) :=
  match url competitor with
  | None => ret None
  | Some u =>
      response <~ fetch_url u ;;
      ret (Some (seo_of_soup (BeautifulSoup env (resp_text response))))
  end.

(** ** analyzers/news.py *)

Definition date_formats : list string :=
  [ "%a, %d %b %Y %H:%M:%S %Z";
    "%a, %d %b %Y %H:%M:%S %z";
    "%Y-%m-%dT%H:%M:%S%z" ].

(** The loop of [_parse_date] over a list of formats: the first format
    [strptime] accepts decides. *)
Fixpoint first_parse (date_str : string) (formats : list string) : option datetime :=
  match formats with
  | [] => None
  | fmt :: rest =>
      match strptime env date_str fmt with
      | Some d => Some d
      | None => first_parse date_str rest
      end
  end.

Definition _parse_date (date_str : string) : option datetime :=
  first_parse date_str date_formats.

(** [re.sub(r"<[^>]+>", "", s)]. The second component is the result for
    what follows the first [>] of [s], when there is one. *)
Fixpoint strip_tags_aux (s : string) : string * option string :=
  match s with
  | EmptyString => (EmptyString, None)
  | String c r =>
      let '(gr, hr) := strip_tags_aux r in
      let keep := String c gr in
      let g :=
        if Ascii.eqb c "<" then
          match r with
          | String c2 _ =>
              if Ascii.eqb c2 ">" then keep
              else match hr with Some x => x | None => keep end
          | EmptyString => keep
          end
        else keep in
      (g, if Ascii.eqb c ">" then Some gr else hr)
  end.

Definition strip_tags (s : string) : string := fst (strip_tags_aux s).

(** One pass of the loop over [channel.findall("item")]: the item appended,
    if any. *)
Definition parse_item (item : Element) : list NewsItem :=
  match ET.find "title" item, ET.find "link" item with
  | Some title_elem, Some link_elem =>
      let pub_date_elem := ET.find "pubDate" item in
      let source_elem := ET.find "source" item in
      let desc_elem := ET.find "description" item in
      [ {| item_title := Py.or_empty (ET.text title_elem);
           item_url := Py.or_empty (ET.text link_elem);
           source := match source_elem with
                     | Some e => ET.text e
                     | None => None
                     end;
           published_at :=
             match pub_date_elem with
             | Some e =>
                 match ET.text e with
                 | Some t => if Py.truthy t then _parse_date t else None
                 | None => None
                 end
             | None => None
             end;
           snippet :=
             match desc_elem with
             | Some e =>
                 match ET.text e with
                 | Some t => if Py.truthy t then Some (Py.take 200 (strip_tags t)) else None
                 | None => None
                 end
             | None => None
             end |} ]
  | _, _ => []
  end.

(** [fromstring] failing is the [ParseError] caught at the end of the body,
    with [items] still empty. *)
Definition _parse_rss (xml_content : string) : list NewsItem :=
  match fromstring env xml_content with
  | None => []
  | Some root =>
      match ET.find "channel" root with
      | None => []
      | Some channel => flat_map parse_item (ET.findall "item" channel)
      end
  end.

Definition rss_url (competitor : Competitor) : string :=
  "https://news.google.com/rss/search?q=" +:+ quote_plus env (name competitor)
  +:+ "&hl=en-US&gl=US&ceid=US:en".

Definition news_analyze (competitor : Competitor) : M AS NewsAnalysisResult :=
  try_except
    (response <~ fetch_url (rss_url competitor) ;;
     let items := _parse_rss (resp_text response) in
     ret {| items := take 20 items; total_mentions := len items |})
    (ret NewsAnalysisResult_default).

(** ** analyzers/social.py *)

Definition _analyze_twitter (h : string) : M AS (option SocialProfile) :=
  let h := Py.lstrip_char "@" h in
  ret (Some (SocialProfile_default "twitter" ("@" +:+ h))).

Definition about_bio (soup : node) : option string :=
  match Soup.find_where "section"
          (fun n => match Soup.get n "class" with
                    | Some v => Py.contains "about" v
                    | None => false
                    end) soup with
  | Some about_section => Some (Py.take 200 (Soup.get_text_strip about_section))
  | None => None
  end.

Definition _analyze_linkedin (profile_url : string) : M AS (option SocialProfile) :=
  try_except
    (response <~ fetch_url profile_url ;;
     let soup := BeautifulSoup env (resp_text response) in
     ret (Some {| platform := "linkedin"; handle := profile_url;
                  followers := None; following := None; posts_count := None;
                  bio := about_bio soup; verified := false |}))
    (ret (Some (SocialProfile_default "linkedin" profile_url))).

(** [if x: profiles.append(x)] for an optional profile *)
Definition append_profile (l : list SocialProfile) (p : option SocialProfile) : list SocialProfile :=
  match p with Some x => l ++ [x] | None => l end.

Definition social_analyze (competitor : Competitor) : M AS SocialAnalysisResult :=
  let profiles := [] in
  profiles <~ (match twitter competitor with
               | Some t =>
                   if Py.truthy t
                   then (p <~ _analyze_twitter t ;; ret (append_profile profiles p))
                   else ret profiles
               | None => ret profiles
               end) ;;
  profiles <~ (match linkedin competitor with
               | Some l =>
                   if Py.truthy l
                   then (p <~ _analyze_linkedin l ;; ret (append_profile profiles p))
                   else ret profiles
               | None => ret profiles
               end) ;;
  ret {| profiles := profiles |}.

(** ** cli.py *)

(** The analysis kinds [click.Choice] admits. *)
Inductive Kind := KWeb | KSeo | KNews | KSocial.

Definition kind_name (k : Kind) : string :=
  match k with
  | KWeb => "web" | KSeo => "seo" | KNews => "news" | KSocial => "social"
  end.

(** The dict [analyzers]: one instance per kind. *)
Record Analyzers := {
  a_web : Analyzer; a_seo : Analyzer; a_news : Analyzer; a_social : Analyzer
}.

Definition analyzer_of (k : Kind) (a : Analyzers) : Analyzer :=
  match k with
  | KWeb => a_web a | KSeo => a_seo a | KNews => a_news a | KSocial => a_social a
  end.

Definition put_analyzer (k : Kind) (x : Analyzer) (a : Analyzers) : Analyzers :=
  match k with
  | KWeb => {| a_web := x; a_seo := a_seo a; a_news := a_news a; a_social := a_social a |}
  | KSeo => {| a_web := a_web a; a_seo := x; a_news := a_news a; a_social := a_social a |}
  | KNews => {| a_web := a_web a; a_seo := a_seo a; a_news := x; a_social := a_social a |}
  | KSocial => {| a_web := a_web a; a_seo := a_seo a; a_news := a_news a; a_social := x |}
  end.

Definition types_to_run (analysis_type : option Kind) (run_all : bool) : list Kind :=
  if run_all then [KWeb; KSeo; KNews; KSocial]
  else match analysis_type with
       | Some t => [t]
       | None => []
       end.

(** [analysis_result = await analyzer.analyze(competitor)] followed by
    [setattr(result, atype, analysis_result)] *)
Definition analyze_into (k : Kind) (competitor : Competitor) (result : AnalysisResult)
  : M AS AnalysisResult :=
  match k with
  | KWeb =>
      r <~ web_analyze competitor ;;
      ret {| competitor_name := competitor_name result; analyzed_at := analyzed_at result;
             web := r; seo := seo result; news := news result; social := social result |}
  | KSeo =>
      r <~ seo_analyze competitor ;;
      ret {| competitor_name := competitor_name result; analyzed_at := analyzed_at result;
             web := web result; seo := r; news := news result; social := social result |}
  | KNews =>
      r <~ news_analyze competitor ;;
      ret {| competitor_name := competitor_name result; analyzed_at := analyzed_at result;
             web := web result; seo := seo result; news := Some r; social := social result |}
  | KSocial =>
      r <~ social_analyze competitor ;;
      ret {| competitor_name := competitor_name result; analyzed_at := analyzed_at result;
             web := web result; seo := seo result; news := news result; social := Some r |}
  end.

(** One pass of the loop over [types_to_run]: a raised exception leaves
    [result] as it was. *)
Definition run_step (competitor : Competitor) (acc : AnalysisResult * Analyzers * World)
  (atype : Kind) : AnalysisResult * Analyzers * World :=
  let '(result, analyzers, w) := acc in
  let analyzer := analyzer_of atype analyzers in
  match analyze_into atype competitor result (analyzer, w) with
  | (Return result', (analyzer', w')) => (result', put_analyzer atype analyzer' analyzers, w')
  | (Raise _, (analyzer', w')) => (result, put_analyzer atype analyzer' analyzers, w')
  end.

Definition new_analyzers : M World Analyzers :=
  aw <~ new_analyzer "web" ;;
  ase <~ new_analyzer "seo" ;;
  an <~ new_analyzer "news" ;;
  aso <~ new_analyzer "social" ;;
  ret {| a_web := aw; a_seo := ase; a_news := an; a_social := aso |}.

Definition _run_analysis (competitor : Competitor) (analysis_type : option Kind)
  (run_all : bool) : M World AnalysisResult :=
  now <~ gets (fun w => datetime_now env (clock w)) ;;
  let result := {| competitor_name := name competitor; analyzed_at := now;
                   web := None; seo := None; news := None; social := None |} in
  analyzers <~ new_analyzers ;;
  fun w =>
    let '(result, _, w') :=
      fold_left (run_step competitor) (types_to_run analysis_type run_all)
                (result, analyzers, w) in
    (Return result, w').

End Analyzers.

(** ** exporters.py *)

Section Exporters.

Variable env : Env.

(** [f"{x:.2f}"] for a whole number of milliseconds *)
Definition format_2f (x : Z) : string := Py.str_int x +:+ ".00".

(** [enumerate(l)] *)
Definition enumerate {A} (l : list A) : list (nat * A) := imap (fun i x => (i, x)) l.

(** [f"{label} {i + 1}{suffix}"] *)
Definition numbered (label : string) (i : nat) (suffix : string) : string :=
  label +:+ " " +:+ Py.str_int (Z.of_nat i + 1) +:+ suffix.

Definition web_rows (w : WebAnalysisResult) : list (list string) :=
  [ ["Web"; "Title"; Py.or_empty (title w)];
    ["Web"; "Description"; Py.or_empty (description w)];
    ["Web"; "Links Count"; Py.str_int (links_count w)];
    ["Web"; "Images Count"; Py.str_int (images_count w)];
    ["Web"; "Page Size (bytes)"; Py.str_int (page_size_bytes w)];
    ["Web"; "Load Time (ms)"; format_2f (load_time_ms w)];
    ["Web"; "Technologies"; Py.join ", " (technologies w)] ]
  ++ map (fun '(i, heading) => ["Web"; numbered "Heading" i ""; heading])
         (enumerate (take 10 (headings w))).

Definition seo_rows (s : SEOAnalysisResult) : list (list string) :=
  [ ["SEO"; "Meta Title"; Py.or_empty (meta_title s)];
    ["SEO"; "Meta Description"; Py.or_empty (meta_description s)];
    ["SEO"; "Meta Keywords"; Py.join ", " (meta_keywords s)];
    ["SEO"; "Canonical URL"; Py.or_empty (canonical_url s)];
    ["SEO"; "Robots"; Py.or_empty (robots_meta s)] ]
  ++ map (fun '(i, h1) => ["SEO"; numbered "H1" i ""; h1]) (enumerate (h1_tags s))
  ++ map (fun '(i, h2) => ["SEO"; numbered "H2" i ""; h2]) (enumerate (take 5 (h2_tags s)))
  ++ map (fun '(key, value) => ["SEO"; "OG: " +:+ key; value]) (og_tags s).

Definition article_rows (e : nat * NewsItem) : list (list string) :=
  let '(i, item) := e in
  [ ["News"; numbered "Article" i " Title"; item_title item];
    ["News"; numbered "Article" i " URL"; item_url item];
    ["News"; numbered "Article" i " Source"; Py.or_empty (source item)] ].

Definition news_rows (n : NewsAnalysisResult) : list (list string) :=
  ["News"; "Total Mentions"; Py.str_int (total_mentions n)]
  :: flat_map article_rows (enumerate (take 10 (items n))).

Definition profile_rows (profile : SocialProfile) : list (list string) :=
  let prefix := "Social (" +:+ platform profile +:+ ")" in
  [ [prefix; "Handle"; handle profile] ]
  ++ match followers profile with
     | Some f => [ [prefix; "Followers"; Py.str_int f] ]
     | None => []
     end
  ++ (if Py.truthy_opt (bio profile)
      then [ [prefix; "Bio"; Py.or_empty (bio profile)] ] else []).

Definition social_rows (s : SocialAnalysisResult) : list (list string) :=
  flat_map profile_rows (profiles s).

Definition section_rows {A} (f : A -> list (list string)) (o : option A) : list (list string) :=
  match o with Some x => f x | None => [] end.

(** The list [rows] that [export_csv] hands to [csv.writer]. *)
Definition export_csv (result : AnalysisResult) : list (list string) :=
  [ ["Section"; "Field"; "Value"];
    ["Meta"; "Competitor"; competitor_name result];
    ["Meta"; "Analyzed At"; isoformat env (analyzed_at result)] ]
  ++ section_rows web_rows (web result)
  ++ section_rows seo_rows (seo result)
  ++ section_rows news_rows (news result)
  ++ section_rows social_rows (social result).

End Exporters.

(** ** Fixtures: competitors, a page, a feed and three environments *)

Definition epoch : datetime :=
  {| year := 2024; month := 1; day := 1; hour := 12; minute := 0; second := 0;
     microsecond := 0; utcoffset := Some 0 |}.

Definition acme : Competitor :=
  {| name := "Acme"; url := Some "https://acme.test"; twitter := None;
     linkedin := None; created_at := epoch |}.

(** The same competitor with both social accounts configured. *)
Definition acme_li : Competitor :=
  {| name := "Acme"; url := Some "https://acme.test"; twitter := Some "@acme";
     linkedin := Some "https://linkedin.test/acme"; created_at := epoch |}.

(** A competitor with no site configured. *)
Definition nosite : Competitor :=
  {| name := "Ghost"; url := None; twitter := Some "@ghost"; linkedin := None;
     created_at := epoch |}.

(** A page whose first heading in the document is an [h2]. *)
Definition acme_page : node :=
  Tag "[document]" []
    [ Tag "html" []
        [ Tag "head" []
            [ Tag "title" [] [NavigableString "Acme"];
              Tag "meta" [("name", "keywords"); ("content", "a, b, c")] [] ];
          Tag "body" []
            [ Tag "h2" [] [NavigableString " Pricing "];
              Tag "h1" [] [NavigableString "Acme"; Tag "b" [] [NavigableString " Inc"]];
              Tag "h3" [] [NavigableString "  "];
              Tag "h2" [] [NavigableString "Contact"] ] ] ].

Definition dated : string := "Mon, 01 Jan 2024 12:00:00 +0000".

Definition acme_item1 : Element :=
  Elem "item" None
    [ Elem "title" (Some "Acme ships") [];
      Elem "link" (Some "https://n.test/1") [];
      Elem "pubDate" (Some dated) [];
      Elem "description" (Some "<b>Acme</b> ships <i>it</i>") [] ].

Definition acme_item2 : Element :=
  Elem "item" None
    [ Elem "title" (Some "Acme again") [];
      Elem "link" (Some "https://n.test/2") [];
      Elem "pubDate" (Some "yesterday") [] ].

Definition acme_channel : Element :=
  Elem "channel" None [acme_item1; acme_item2].

Definition acme_feed : Element := Elem "rss" None [acme_channel].

Definition ok_response (body : string) : Response :=
  {| status_code := 200; resp_text := body; content := body |}.

(** A network that answers every request in 50 ms: the feed for the news
    address, the page for any other. The date parser knows one date, under
    the second format only. *)
Definition demo_env : Env :=
  {| http_get := fun u =>
       (50, Some (ok_response (if String.prefix "https://news." u then "feed" else "page")));
     sleep_lag := 0;
     BeautifulSoup := fun _ => acme_page;
     fromstring := fun s => if String.eqb s "feed" then Some acme_feed else None;
     strptime := fun s fmt =>
       if String.eqb s dated
          && String.eqb fmt "%a, %d %b %Y %H:%M:%S %z"
       then Some epoch else None;
     json_loads := fun _ => None;
     quote_plus := fun s => s;
     datetime_now := fun _ => epoch;
     isoformat := fun _ => "2024-01-01T12:00:00+00:00" |}.

(** The same, with a network that is down. *)
Definition down_env : Env :=
  {| http_get := fun _ => (30000, None);
     sleep_lag := sleep_lag demo_env;
     BeautifulSoup := BeautifulSoup demo_env;
     fromstring := fromstring demo_env;
     strptime := strptime demo_env;
     json_loads := json_loads demo_env;
     quote_plus := quote_plus demo_env;
     datetime_now := datetime_now demo_env;
     isoformat := isoformat demo_env |}.

(** The same, with a feed endpoint that answers with a page, not XML. *)
Definition garbled_env : Env :=
  {| http_get := fun _ => (50, Some (ok_response "page"));
     sleep_lag := sleep_lag demo_env;
     BeautifulSoup := BeautifulSoup demo_env;
     fromstring := fromstring demo_env;
     strptime := strptime demo_env;
     json_loads := json_loads demo_env;
     quote_plus := quote_plus demo_env;
     datetime_now := datetime_now demo_env;
     isoformat := isoformat demo_env |}.






Definition empty_store : Store :=
  {| config_dir := false; config_file := None; writes := 0 |}.

(** A world five seconds into the life of the monotonic clock. *)
Definition world0 : World :=
  {| clock := 5000; store := empty_store; requests := [] |}.

Definition fresh (nm : string) : Analyzer :=
  {| analyzer_name := nm; _config := Config_default; _last_request_time := 0 |}.

(** * Vocabulary of the properties *)

(** The state after [_rate_limit]: the clock moved past the wait, if any,
    and the instance stamped with the new reading. *)
Definition limited (env : Env) (s : AS) : AS :=
  let delay := rate_limit_delay (_config (fst s)) in
  let elapsed := clock (snd s) - _last_request_time (fst s) in
  let w :=
    if elapsed <? delay
    then set_clock (clock (snd s) + (delay - elapsed) + sleep_lag env) (snd s)
    else snd s in
  (set_last_request_time (clock w) (fst s), w).

(** The state after [client.get]: the request logged at the current
    reading, the clock moved by the latency of the exchange. *)
Definition exchanged (env : Env) (u : string) (s : AS) : AS :=
  (fst s,
   set_clock (clock (snd s) + fst (http_get env u))
     (log_request {| req_time := clock (snd s); req_by := analyzer_name (fst s);
                     req_url := u |} (snd s))).

(** The feed cannot be had: the transport fails, the status is not a
    success, or what comes back is not XML. *)
Definition feed_fails (env : Env) (competitor : Competitor) : Prop :=
  match snd (http_get env (rss_url env competitor)) with
  | None => True
  | Some r => is_success r = false \/ fromstring env (resp_text r) = None
  end.


(** [sub] occurs in [s] at some position. *)
Definition occurs (sub s : string) : Prop :=
  exists pre post, s = pre +:+ sub +:+ post.

(** Some stretch of [html], wherever it lies, is [sig] up to letter case. *)
Definition occurs_ignoring_case (sig html : string) : Prop :=
  exists pre mid post, html = pre +:+ mid +:+ post /\ Py.lower mid = Py.lower sig.

(** One of the fixed signatures of [tech] occurs in [html] up to case. *)
Definition signature_found (tech html : string) : Prop :=
  exists sigs sig,
    In (tech, sigs) tech_signatures /\ In sig sigs /\ occurs_ignoring_case sig html.

Definition heading_levels : list string := ["h1"; "h2"; "h3"].

(** The level and stripped text of a node that is a heading with some
    text. *)
Definition heading_of (n : node) : list (string * string) :=
  match n with
  | Tag t _ _ =>
      if existsb (String.eqb t) heading_levels
      then (if Py.truthy (Soup.get_text_strip n) then [(t, Soup.get_text_strip n)] else [])
      else []
  | NavigableString _ => []
  end.

(** The headings of a page, in their order of appearance. *)
Definition headings_in_order (soup : node) : list (string * string) :=
  flat_map heading_of (Soup.descendants soup).

Definition render (h : string * string) : string := fst h +:+ ": " +:+ snd h.

(** What the specification asks for: the first twenty headings in document
    order, whatever their level. *)
Definition document_order_headings (soup : node) : list string :=
  take 20 (map render (headings_in_order soup)).

Definition of_level (t : string) (l : list (string * string)) : list (string * string) :=
  List.filter (fun h => String.eqb (fst h) t) l.

(** What the code builds: the [h1] headings in document order, then the
    [h2] ones, then the [h3] ones, and of that list the first twenty. *)
Definition level_order_headings (soup : node) : list string :=
  take 20 (map render (of_level "h1" (headings_in_order soup)
                       ++ of_level "h2" (headings_in_order soup)
                       ++ of_level "h3" (headings_in_order soup))).

(** Some row of the table has [v] in its Value column. *)
Definition has_row (rows : list (list string)) (v : string) : Prop :=
  exists sec field, In [sec; field; v] rows.

Definition opt_cell (o : option string) : list string :=
  match o with Some s => [s] | None => [] end.

Definition int_cell (o : option Z) : list string :=
  match o with Some i => [Py.str_int i] | None => [] end.

(** The cells of a section that may be absent. *)
Definition present {A} (f : A -> list string) (o : option A) : list string :=
  match o with Some x => f x | None => [] end.

(** The non-null scalar fields of a result, as text. Repeated fields count
    up to the export caps. *)
Definition item_scalars (env : Env) (it : NewsItem) : list string :=
  [item_title it; item_url it] ++ opt_cell (source it)
  ++ match published_at it with Some d => [isoformat env d] | None => [] end
  ++ opt_cell (snippet it).

Definition profile_scalars (p : SocialProfile) : list string :=
  [handle p] ++ int_cell (followers p) ++ int_cell (following p)
  ++ int_cell (posts_count p) ++ opt_cell (bio p) ++ [Py.str_bool (verified p)].

Definition web_scalars (w : WebAnalysisResult) : list string :=
  opt_cell (title w) ++ opt_cell (description w)
  ++ [Py.str_int (links_count w); Py.str_int (images_count w);
      Py.str_int (page_size_bytes w); format_2f (load_time_ms w)].

Definition seo_scalars (s : SEOAnalysisResult) : list string :=
  opt_cell (meta_title s) ++ opt_cell (meta_description s)
  ++ opt_cell (canonical_url s) ++ opt_cell (robots_meta s).

Definition scalar_cells (env : Env) (r : AnalysisResult) : list string :=
  [competitor_name r; isoformat env (analyzed_at r)]
  ++ present web_scalars (web r)
  ++ present seo_scalars (seo r)
  ++ present (fun n => Py.str_int (total_mentions n)
                            :: flat_map (item_scalars env) (take 10 (items n))) (news r)
  ++ present (fun s => flat_map profile_scalars (profiles s)) (social r).

(** What the specification asks for: each of them is the value of a row. *)
Definition every_scalar_has_a_row (env : Env) (r : AnalysisResult) : Prop :=
  forall v, In v (scalar_cells env r) -> has_row (export_csv env r) v.

(** The scalar fields the exporter does write. *)
Definition item_exported (it : NewsItem) : list string :=
  [item_title it; item_url it] ++ opt_cell (source it).

Definition profile_exported (p : SocialProfile) : list string :=
  [handle p] ++ int_cell (followers p)
  ++ (if Py.truthy_opt (bio p) then opt_cell (bio p) else []).

Definition exported_cells (env : Env) (r : AnalysisResult) : list string :=
  [competitor_name r; isoformat env (analyzed_at r)]
  ++ present web_scalars (web r)
  ++ present seo_scalars (seo r)
  ++ present (fun n => Py.str_int (total_mentions n)
                            :: flat_map item_exported (take 10 (items n))) (news r)
  ++ present (fun s => flat_map profile_exported (profiles s)) (social r).

(** The number of rows of the table, header included. *)
Definition profile_row_count (p : SocialProfile) : nat :=
  1 + match followers p with Some _ => 1 | None => 0 end
  + (if Py.truthy_opt (bio p) then 1 else 0).

Definition row_count (r : AnalysisResult) : nat :=
  3
  + match web r with
    | Some w => 7 + Nat.min 10 (length (headings w))
    | None => 0
    end
  + match seo r with
    | Some s => 5 + length (h1_tags s) + Nat.min 5 (length (h2_tags s)) + length (og_tags s)
    | None => 0
    end
  + match news r with
    | Some n => 1 + 3 * Nat.min 10 (length (items n))
    | None => 0
    end
  + match social r with
    | Some s => list_sum (map profile_row_count (profiles s))
    | None => 0
    end.

(** A result with the fields the exporter never reads set to their
    defaults. *)
Definition erase_item (it : NewsItem) : NewsItem :=
  {| item_title := item_title it; item_url := item_url it; source := source it;
     published_at := None; snippet := None |}.

Definition erase_profile (p : SocialProfile) : SocialProfile :=
  {| platform := platform p; handle := handle p; followers := followers p;
     following := None; posts_count := None; bio := bio p; verified := false |}.

Definition erase_unexported (r : AnalysisResult) : AnalysisResult :=
  {| competitor_name := competitor_name r;
     analyzed_at := analyzed_at r;
     web := web r;
     seo := match seo r with
            | Some s =>
                Some {| meta_title := meta_title s;
                        meta_description := meta_description s;
                        meta_keywords := meta_keywords s;
                        h1_tags := h1_tags s; h2_tags := h2_tags s;
                        canonical_url := canonical_url s;
                        robots_meta := robots_meta s;
                        og_tags := og_tags s; structured_data := [] |}
            | None => None
            end;
     news := match news r with
             | Some n => Some {| items := map erase_item (items n);
                                 total_mentions := total_mentions n |}
             | None => None
             end;
     social := match social r with
               | Some s => Some {| profiles := map erase_profile (profiles s) |}
               | None => None
               end |}.

(** A result with one news item and one social profile, every field set. *)
Definition full_result : AnalysisResult :=
  {| competitor_name := "Acme";
     analyzed_at := epoch;
     web := None;
     seo := None;
     news := Some {| items := [ {| item_title := "Acme ships";
                                   item_url := "https://n.test/1";
                                   source := Some "The Wire";
                                   published_at := Some epoch;
                                   snippet := Some "Acme ships it" |} ];
                     total_mentions := 1 |};
     social := Some {| profiles := [ {| platform := "twitter"; handle := "@acme";
                                        followers := Some 1200; following := Some 77;
                                        posts_count := Some 3; bio := Some "we ship";
                                        verified := true |} ] |} |}.

(** Who issued each request of a log, and to which address. *)
Definition trace (w : World) : list (string * string) :=
  map (fun r => (req_by r, req_url r)) (requests w).

(** The addresses the analyzer of kind [k] fetches for a competitor. *)
Definition fetched_by (env : Env) (k : Kind) (c : Competitor) : list string :=
  match k with
  | KWeb | KSeo => opt_cell (url c)
  | KNews => [rss_url env c]
  | KSocial =>
      match linkedin c with
      | Some l => if Py.truthy l then [l] else []
      | None => []
      end
  end.

(** The state after fetching a list of addresses in turn. *)
Definition after_fetches (env : Env) (urls : list string) (s : AS) : AS :=
  fold_left (fun s u => exchanged env u (limited env s)) urls s.


(** The four instances carry the names of their kinds. *)
Definition well_named (a : Analyzers) : Prop :=
  forall k, analyzer_name (analyzer_of k a) = kind_name k.

(** The registry of a store, as [load_config] reads it. *)
Definition registry (st : Store) : gmap string Competitor :=
  competitors (fst (load_config st)).

(** Every entry of a registry sits under the name of its competitor. *)
Definition keyed_by_name (reg : gmap string Competitor) : Prop :=
  forall n c, reg !! n = Some c -> name c = n.

(** The log of a world is in order: no request is later than the clock and
    the requests are listed by time of issue. *)
Definition log_in_order (w : World) : Prop :=
  (forall r, In r (requests w) -> req_time r <= clock w)
  /\ forall (i j : nat) (r1 r2 : Request),
       (i <= j)%nat -> requests w !! i = Some r1 -> requests w !! j = Some r2 ->
       req_time r1 <= req_time r2.

Definition kind_eqb (a b : Kind) : bool :=
  match a, b with
  | KWeb, KWeb | KSeo, KSeo | KNews, KNews | KSocial, KSocial => true
  | _, _ => false
  end.

(** The slot of kind [k] of a result is filled. *)
Definition has_slot (k : Kind) (r : AnalysisResult) : bool :=
  match k with
  | KWeb => match web r with Some _ => true | None => false end
  | KSeo => match seo r with Some _ => true | None => false end
  | KNews => match news r with Some _ => true | None => false end
  | KSocial => match social r with Some _ => true | None => false end
  end.

(** The site of the competitor is configured and answers with a success. *)
Definition site_answers (env : Env) (c : Competitor) : bool :=
  match url c with
  | Some u =>
      match snd (http_get env u) with
      | Some r => is_success r
      | None => false
      end
  | None => false
  end.

(** The analysis of kind [k] yields a result to store: the web and SEO
    analyses when the site answers, the news and social ones always. *)
Definition yields (env : Env) (c : Competitor) (k : Kind) : bool :=
  match k with
  | KWeb | KSeo => site_answers env c
  | KNews | KSocial => true
  end.

(** The profile the social analyzer lists for the Twitter handle, if one
    is configured. *)
Definition twitter_profiles (c : Competitor) : list SocialProfile :=
  match twitter c with
  | Some t =>
      if Py.truthy t
      then [SocialProfile_default "twitter" ("@" +:+ Py.lstrip_char "@" t)]
      else []
  | None => []
  end.

(** The LinkedIn address the social analyzer fetches, if one is configured. *)
Definition linkedin_address (c : Competitor) : option string :=
  match linkedin c with
  | Some l => if Py.truthy l then Some l else None
  | None => None
  end.

(** A feed item that has both a title and a link. *)
Definition complete_item (item : Element) : bool :=
  match ET.find "title" item, ET.find "link" item with
  | Some _, Some _ => true
  | _, _ => false
  end.

(** The [meta] tags whose [property] starts with [og:], in document
    order. *)
Definition og_metas (soup : node) : list node :=
  Soup.find_all_where "meta"
    (fun n => match Soup.get n "property" with
              | Some v => String.prefix "og:" v
              | None => false
              end) soup.

(** The content of the last tag of a list that has the property [p] and a
    content that is not empty. *)
Definition last_content (p : string) (tags : list node) : option string :=
  fold_left (fun acc t =>
               if Py.truthy (get_or_empty t "property")
                  && Py.truthy (get_or_empty t "content")
                  && String.eqb (get_or_empty t "property") p
               then Some (get_or_empty t "content") else acc)
            tags None.

(** The values of the rows of a table that are filed under a section and
    a field, in the order of the table. *)
Definition cells (sec field : string) (rows : list (list string)) : list string :=
  flat_map (fun row =>
              match row with
              | [s; f; v] => if String.eqb s sec && String.eqb f field then [v] else []
              | _ => []
              end) rows.

(** The section under which the rows of a social profile are filed. *)
Definition social_section (p : string) : string := "Social (" +:+ p +:+ ")".

(** Two endings neither of which is an ending of the other. *)
Definition clash (s t : string) : Prop :=
  (forall z, t <> z +:+ s) /\ (forall z, s <> z +:+ t).

(** No row of the table is filed under the section [sec]. *)
Definition no_rows_under (sec : string) (rows : list (list string)) : Prop :=
  forall field, cells sec field rows = [].

(** The rows the table has for a web result: one under each of seven
    fields, and one per heading, numbered from 1, for the first ten. *)
Definition web_table (w : WebAnalysisResult) (rows : list (list string)) : Prop :=
  cells "Web" "Title" rows = [Py.or_empty (title w)]
  /\ cells "Web" "Description" rows = [Py.or_empty (description w)]
  /\ cells "Web" "Links Count" rows = [Py.str_int (links_count w)]
  /\ cells "Web" "Images Count" rows = [Py.str_int (images_count w)]
  /\ cells "Web" "Page Size (bytes)" rows = [Py.str_int (page_size_bytes w)]
  /\ cells "Web" "Load Time (ms)" rows = [format_2f (load_time_ms w)]
  /\ cells "Web" "Technologies" rows = [Py.join ", " (technologies w)]
  /\ forall i, cells "Web" (numbered "Heading" i "") rows
               = opt_cell (take 10 (headings w) !! i).

(** The rows for an SEO result: one under each of five fields, one per H1,
    one per H2 for the first five, and one per open-graph pair. *)
Definition seo_table (s : SEOAnalysisResult) (rows : list (list string)) : Prop :=
  cells "SEO" "Meta Title" rows = [Py.or_empty (meta_title s)]
  /\ cells "SEO" "Meta Description" rows = [Py.or_empty (meta_description s)]
  /\ cells "SEO" "Meta Keywords" rows = [Py.join ", " (meta_keywords s)]
  /\ cells "SEO" "Canonical URL" rows = [Py.or_empty (canonical_url s)]
  /\ cells "SEO" "Robots" rows = [Py.or_empty (robots_meta s)]
  /\ (forall i, cells "SEO" (numbered "H1" i "") rows = opt_cell (h1_tags s !! i))
  /\ (forall i, cells "SEO" (numbered "H2" i "") rows
                = opt_cell (take 5 (h2_tags s) !! i))
  /\ (forall k, cells "SEO" ("OG: " +:+ k) rows
                = map snd (List.filter (fun kv => String.eqb (fst kv) k) (og_tags s))).

(** The rows for a news result: the total, and the title, address and
    source of each of the first ten items. *)
Definition news_table (n : NewsAnalysisResult) (rows : list (list string)) : Prop :=
  cells "News" "Total Mentions" rows = [Py.str_int (total_mentions n)]
  /\ forall i,
       cells "News" (numbered "Article" i " Title") rows
       = opt_cell (item_title <$> take 10 (items n) !! i)
       /\ cells "News" (numbered "Article" i " URL") rows
          = opt_cell (item_url <$> take 10 (items n) !! i)
       /\ cells "News" (numbered "Article" i " Source") rows
          = opt_cell ((fun it => Py.or_empty (source it)) <$> take 10 (items n) !! i).

(** The rows for the social profiles of a platform: the handle of each, the
    follower count of those that have one, the bio of those whose bio is not
    empty, and nothing under any other field. *)
Definition social_table (s : SocialAnalysisResult) (rows : list (list string)) : Prop :=
  forall p,
    let mine := List.filter (fun q => String.eqb (platform q) p) (profiles s) in
    cells (social_section p) "Handle" rows = map handle mine
    /\ cells (social_section p) "Followers" rows
       = flat_map (fun q => int_cell (followers q)) mine
    /\ cells (social_section p) "Bio" rows
       = flat_map (fun q => if Py.truthy_opt (bio q) then opt_cell (bio q) else []) mine
    /\ forall field,
         field <> "Handle" -> field <> "Followers" -> field <> "Bio" ->
         cells (social_section p) field rows = [].



(** * Properties *)

(** ** The string helpers on sample inputs *)

Example strip_sample : Py.strip "  a b  " = "a b" /\ Py.strip "   " = "".
Proof. split; reflexivity. Qed.

Example split_sample : Py.split "," "a, b, c" = ["a"; " b"; " c"] /\ Py.split "," "" = [""].
Proof. split; reflexivity. Qed.

Example lower_sample : Py.lower "jQuery __NEXT_DATA__" = "jquery __next_data__".
Proof. reflexivity. Qed.

Example str_int_sample : Py.str_int (-42) = "-42" /\ Py.str_int 0 = "0".
Proof. split; vm_compute; reflexivity. Qed.

Example strip_tags_sample :
  strip_tags "<b>Acme</b> ships <i>it</i> a<>b <c" = "Acme ships it a<>b <c".
Proof. reflexivity. Qed.

Example words_sample :
  Py.words "  alternate   canonical " = ["alternate"; "canonical"] /\ Py.words " " = [].
Proof. split; reflexivity. Qed.

Example canonical_sample :
  canonical_href
    (Tag "head" [] [Tag "link" [("rel", "shortlink canonical"); ("href", "https://acme.test/")] []])
  = Some "https://acme.test/".
Proof. reflexivity. Qed.

Example get_text_sample :
  Soup.get_text_strip (Tag "h1" [] [NavigableString " Acme "; Tag "b" [] [NavigableString "Inc "]])
  = "AcmeInc".
Proof. reflexivity. Qed.

(** ** The competitor registry *)

Lemma load_config_file (st : Store) :
  config_file (snd (load_config st)) = config_file st
  /\ writes (snd (load_config st)) = writes st.
Proof. destruct st as [d [c|] n]; split; reflexivity. Qed.

Lemma load_config_fst (st : Store) :
  fst (load_config st) = default Config_default (config_file st).
Proof. destruct st as [d [c|] n]; reflexivity. Qed.

Lemma load_after_save (c : Config) (st : Store) :
  fst (load_config (save_config c st)) = c.
Proof. reflexivity. Qed.

Lemma add_competitor_file (c : Competitor) (st : Store) :
  config_file (add_competitor c st)
  = Some (set_competitors (default Config_default (config_file st))
            (<[name c := c]> (competitors (default Config_default (config_file st))))).
Proof. destruct st as [d [cfg|] n]; reflexivity. Qed.

Lemma get_competitor_lookup (n : string) (st : Store) :
  fst (get_competitor n st)
  = competitors (default Config_default (config_file st)) !! n.
Proof. destruct st as [d [cfg|] k]; reflexivity. Qed.

Lemma remove_competitor_present (n : string) (st : Store) (c : Competitor) :
  competitors (default Config_default (config_file st)) !! n = Some c ->
  remove_competitor n st
  = (true,
     {| config_dir := true;
        config_file :=
          Some (set_competitors (default Config_default (config_file st))
                  (delete n (competitors (default Config_default (config_file st)))));
        writes := S (writes st) |}).
Proof.
  destruct st as [d [cfg|] k]; cbn; intros H; unfold remove_competitor; cbn;
    rewrite H; reflexivity.
Qed.

Lemma remove_competitor_absent (n : string) (st : Store) :
  competitors (default Config_default (config_file st)) !! n = None ->
  remove_competitor n st = (false, ensure_config_dir st).
Proof.
  destruct st as [d [cfg|] k]; cbn; intros H; unfold remove_competitor; cbn;
    rewrite H; reflexivity.
Qed.

(** C9: after adding the competitor named "Acme" with the address
    https://acme.test, the registry file holds an entry under the key "Acme"
    that carries this address and looking "Acme" up returns it; removing
    "Acme" then succeeds and the next lookup returns [None]. This holds from
    every state of the store and for any other fields of the competitor. *)
Theorem add_lookup_remove_Acme (st : Store) (tw li : option string) (at_ : datetime) :
  let c := {| name := "Acme"; url := Some "https://acme.test"; twitter := tw;
              linkedin := li; created_at := at_ |} in
  let st1 := add_competitor c st in
  let st2 := snd (remove_competitor "Acme" st1) in
  (exists cfg, config_file st1 = Some cfg /\ competitors cfg !! "Acme" = Some c)
  /\ fst (get_competitor "Acme" st1) = Some c
  /\ url <$> fst (get_competitor "Acme" st1) = Some (Some "https://acme.test")
  /\ fst (remove_competitor "Acme" st1) = true
  /\ fst (get_competitor "Acme" st2) = None.
Proof.
  intros c st1 st2.
  assert (Hfile := add_competitor_file c st). fold st1 in Hfile.
  assert (Hlook : fst (get_competitor "Acme" st1) = Some c).
  { rewrite get_competitor_lookup, Hfile. cbn. apply lookup_insert_eq. }
  assert (Hrem := remove_competitor_present "Acme" st1 c).
  rewrite get_competitor_lookup in Hlook. specialize (Hrem Hlook).
  repeat split.
  - eexists. split; [exact Hfile|]. rewrite Hfile in Hlook. exact Hlook.
  - rewrite get_competitor_lookup. exact Hlook.
  - rewrite get_competitor_lookup, Hlook. reflexivity.
  - rewrite Hrem. reflexivity.
  - subst st2. rewrite Hrem. rewrite get_competitor_lookup. cbn.
    apply lookup_delete_eq.
Qed.

(** C10: [remove_competitor] answers [True] exactly when the name is in the
    registry. For a name that is not there it answers [False], the registry
    file is not written and keeps its content; for a name that is there the
    file is written once, with the registry less that entry. *)
Theorem remove_competitor_spec (n : string) (st : Store) :
  let reg := competitors (fst (load_config st)) in
  let b := fst (remove_competitor n st) in
  let st' := snd (remove_competitor n st) in
  (b = true <-> is_Some (reg !! n))
  /\ (reg !! n = None ->
      b = false /\ config_file st' = config_file st /\ writes st' = writes st
      /\ competitors (fst (load_config st')) = reg)
  /\ (is_Some (reg !! n) ->
      b = true /\ writes st' = S (writes st)
      /\ competitors (fst (load_config st')) = delete n reg
      /\ fst (get_competitor n st') = None).
Proof.
  intros reg b st'. subst reg b st'. rewrite load_config_fst.
  destruct (competitors (default Config_default (config_file st)) !! n) as [c|] eqn:E.
  - rewrite (remove_competitor_present n st c E). cbn.
    split; [split; eauto|]. split; [discriminate|]. intros _.
    repeat split. apply lookup_delete_eq.
  - rewrite (remove_competitor_absent n st E). cbn.
    split; [split; [discriminate | intros [x Hx]; discriminate]|].
    split; [|intros [x Hx]; discriminate]. intros _.
    repeat split. destruct st as [d [cfg|] k]; reflexivity.
Qed.

(** Both cases on sample stores: nothing to remove from an empty store, and
    the one entry of a store removed with one write. *)
Example remove_competitor_samples :
  remove_competitor "Acme" empty_store = (false, ensure_config_dir empty_store)
  /\ fst (remove_competitor "Acme" (add_competitor acme empty_store)) = true
  /\ writes (snd (remove_competitor "Acme" (add_competitor acme empty_store))) = 2%nat
  /\ writes (snd (remove_competitor "Ghost" (add_competitor acme empty_store))) = 1%nat.
Proof. repeat split; vm_compute; reflexivity. Qed.

(** ** The rate-limited fetcher *)

Lemma rate_limit_run (env : Env) (s : AS) :
  _rate_limit env s = (Return tt, limited env s).
Proof.
  destruct s as [self w]. unfold _rate_limit, limited, bind, gets, loop_time, modify, sleep, ret.
  cbn. destruct (_ <? _); reflexivity.
Qed.

Lemma fetch_url_run (env : Env) (u : string) (s : AS) :
  fetch_url env u s =
  (match snd (http_get env u) with
   | Some r => if is_success r then Return r else Raise (HTTPStatusError (status_code r))
   | None => Raise TransportError
   end,
   exchanged env u (limited env s)).
Proof.
  unfold fetch_url, bind at 1. rewrite rate_limit_run.
  unfold bind, client_get, exchanged, modify, ret, raise. cbn.
  destruct (http_get env u) as [lat [r|]]; cbn; [destruct (is_success r)|]; reflexivity.
Qed.

(** ** Missing site address *)

(** C6: for a competitor with no site address configured, the web analyzer
    and the SEO analyzer both return [None]; neither raises, and neither
    touches the clock, the instance or the network. *)
Theorem no_url_gives_absent (env : Env) (competitor : Competitor) (s : AS) :
  url competitor = None ->
  web_analyze env competitor s = (Return None, s)
  /\ seo_analyze env competitor s = (Return None, s).
Proof.
  intros H. unfold web_analyze, seo_analyze. rewrite H. split; reflexivity.
Qed.

Lemma no_url_gives_absent_witness :
  web_analyze demo_env nosite (fresh "web", world0) = (Return None, (fresh "web", world0))
  /\ seo_analyze demo_env nosite (fresh "web", world0) = (Return None, (fresh "web", world0)).
Proof. apply (no_url_gives_absent demo_env nosite). reflexivity. Defined.

(** ** The news analyzer *)

(** C4: when the feed request fails in transport, is answered with a status
    that is not a success, or is answered with text that is not XML, the
    news analyzer returns the empty [NewsAnalysisResult] (no item, zero
    mentions): the call returns and does not raise. *)
Theorem news_failure_gives_empty (env : Env) (competitor : Competitor) (s : AS) :
  feed_fails env competitor ->
  fst (news_analyze env competitor s) = Return NewsAnalysisResult_default
  /\ items NewsAnalysisResult_default = []
  /\ total_mentions NewsAnalysisResult_default = 0.
Proof.
  intros H. split; [|split; reflexivity].
  unfold feed_fails in H. unfold news_analyze, try_except, bind.
  rewrite fetch_url_run.
  destruct (snd (http_get env (rss_url env competitor))) as [r|]; [|reflexivity].
  destruct (is_success r) eqn:Hs; [|reflexivity].
  destruct H as [H|H]; [discriminate|].
  unfold _parse_rss, ret. rewrite H. reflexivity.
Qed.

Lemma news_failure_gives_empty_witness :
  fst (news_analyze down_env acme (fresh "news", world0)) = Return NewsAnalysisResult_default
  /\ fst (news_analyze garbled_env acme (fresh "news", world0)) = Return NewsAnalysisResult_default.
Proof.
  split.
  - apply (news_failure_gives_empty down_env acme). exact I.
  - apply (news_failure_gives_empty garbled_env acme). right. reflexivity.
Defined.

(** The news analyzer returns on every input. *)
Lemma news_analyze_returns (env : Env) (competitor : Competitor) (s : AS) :
  exists r, fst (news_analyze env competitor s) = Return r.
Proof.
  unfold news_analyze, try_except, bind. rewrite fetch_url_run.
  destruct (snd (http_get env _)) as [r|]; [destruct (is_success r)|]; eexists; reflexivity.
Qed.

(** ** Publication dates *)







(** ** Technology detection *)

Lemma append_cons (c : ascii) (a b : string) : String c a +:+ b = String c (a +:+ b).
Proof. reflexivity. Qed.

Lemma append_nil (b : string) : "" +:+ b = b.
Proof. reflexivity. Qed.

Ltac norm_append := rewrite ?append_cons, ?append_nil in *.

Lemma prefix_occurs (a s : string) :
  String.prefix a s = true <-> exists post, s = a +:+ post.
Proof.
  revert s. induction a as [|c a IH]; intros s; cbn.
  - split; [intros _; exists s; reflexivity|destruct s; reflexivity].
  - destruct s as [|c' s]; cbn.
    + split; [discriminate|]. intros [post H]. norm_append. discriminate.
    + destruct (ascii_dec c c') as [->|Hne].
      * rewrite IH. split; intros [post H]; exists post; norm_append; congruence.
      * split; [discriminate|]. intros [post H]. norm_append. congruence.
Qed.

Lemma contains_occurs (sub s : string) :
  Py.contains sub s = true <-> occurs sub s.
Proof.
  unfold occurs. induction s as [|c s IH].
  - change (Py.contains sub "") with (String.prefix sub "" || false).
    rewrite orb_false_r, prefix_occurs. split.
    + intros [post H]. exists "", post. exact H.
    + intros (pre & post & H). destruct pre; norm_append; [eauto|discriminate].
  - change (Py.contains sub (String c s))
      with (String.prefix sub (String c s) || Py.contains sub s).
    rewrite orb_true_iff, prefix_occurs, IH. split.
    + intros [[post H]|(pre & post & H)].
      * exists "", post. exact H.
      * exists (String c pre), post. norm_append. congruence.
    + intros (pre & post & H). destruct pre as [|c' pre]; norm_append.
      * left. eauto.
      * right. exists pre, post. congruence.
Qed.

Lemma lower_app (a b : string) : Py.lower (a +:+ b) = Py.lower a +:+ Py.lower b.
Proof. induction a as [|c a IH]; norm_append; cbn; [reflexivity|]. rewrite IH. reflexivity. Qed.

Lemma lower_split (s x y : string) :
  Py.lower s = x +:+ y ->
  exists a b, s = a +:+ b /\ Py.lower a = x /\ Py.lower b = y.
Proof.
  revert s. induction x as [|c x IH]; intros s H; norm_append.
  - exists "", s. auto.
  - destruct s as [|c' s]; cbn in H; [discriminate|].
    injection H as Hc Hs. destruct (IH s Hs) as (a & b & -> & Ha & Hb).
    exists (String c' a), b. norm_append. cbn. repeat split; congruence.
Qed.

Lemma occurs_lower (sig html : string) :
  occurs (Py.lower sig) (Py.lower html) <-> occurs_ignoring_case sig html.
Proof.
  split.
  - intros (pre & post & H).
    destruct (lower_split _ _ _ H) as (a & b & -> & Ha & Hb).
    destruct (lower_split _ _ _ Hb) as (m & p & -> & Hm & Hp).
    exists a, m, p. auto.
  - intros (pre & mid & post & -> & H).
    exists (Py.lower pre), (Py.lower post). rewrite !lower_app, H. reflexivity.
Qed.

Lemma detected_found (tech html : string) :
  In tech (detected html) <-> signature_found tech html.
Proof.
  unfold detected, signature_found. rewrite in_flat_map. split.
  - intros ([t sigs] & Hin & H).
    destruct (existsb _ sigs) eqn:E; [|destruct H].
    destruct H as [<-|[]]. apply existsb_exists in E. destruct E as (sig & Hsig & Hc).
    exists sigs, sig. repeat split; try assumption.
    apply occurs_lower, contains_occurs. exact Hc.
  - intros (sigs & sig & Hin & Hsig & Hocc). exists (tech, sigs). split; [exact Hin|].
    replace (existsb _ sigs) with true; [left; reflexivity|].
    symmetry. apply existsb_exists. exists sig. split; [exact Hsig|].
    apply contains_occurs, occurs_lower. exact Hocc.
Qed.

(** C7: the reported technologies depend on the HTML text alone, so the
    same text gives the same answer on every run; no technology is listed
    twice; and a technology is listed if and only if one of its fixed
    signatures occurs somewhere in the text up to letter case, at whatever
    position. *)
Theorem detect_technologies_spec (soup soup' : node) (html : string) :
  _detect_technologies soup html = _detect_technologies soup' html
  /\ NoDup (_detect_technologies soup html)
  /\ forall tech, In tech (_detect_technologies soup html) <-> signature_found tech html.
Proof.
  split; [reflexivity|]. split; [apply NoDup_elements|].
  intros tech. unfold _detect_technologies.
  rewrite <- list_elem_of_In, elem_of_elements, elem_of_list_to_set, list_elem_of_In.
  apply detected_found.
Qed.

(** ** The SEO analyzer *)

Lemma seo_analyze_run (env : Env) (competitor : Competitor) (u : string) (s : AS)
  (response : Response) :
  url competitor = Some u ->
  fst (fetch_url env u s) = Return response ->
  fst (seo_analyze env competitor s)
  = Return (Some (seo_of_soup env (BeautifulSoup env (resp_text response)))).
Proof.
  intros Hu Hf. unfold seo_analyze. rewrite Hu. unfold bind.
  destruct (fetch_url env u s) as [[r|e] s']; cbn in Hf; [|discriminate].
  injection Hf as ->. reflexivity.
Qed.

(** C8: when the site is configured and its page is fetched, the SEO result
    lists as [h2_tags] the texts of the first ten [h2] tags of the page in
    document order, so never more than ten; [meta_keywords] is the content
    of the keywords [meta] tag split at the commas, each part stripped of
    surrounding white space, so the content "a, b, c" gives ["a"; "b"; "c"];
    and if the page has exactly two [h2] tags then [h2_tags] has length 2. *)
Theorem seo_keywords_and_h2 (env : Env) (competitor : Competitor) (u : string)
  (s : AS) (response : Response) :
  url competitor = Some u ->
  fst (fetch_url env u s) = Return response ->
  let soup := BeautifulSoup env (resp_text response) in
  exists r,
    fst (seo_analyze env competitor s) = Return (Some r)
    /\ h2_tags r = take 10 (map Soup.get_text_strip (Soup.find_all "h2" soup))
    /\ (length (h2_tags r) <= 10)%nat
    /\ (forall m c,
          Soup.find_where "meta" (Soup.attr_is "name" "keywords") soup = Some m ->
          Soup.get m "content" = Some c -> c <> "" ->
          meta_keywords r = map Py.strip (Py.split "," c))
    /\ (forall m,
          Soup.find_where "meta" (Soup.attr_is "name" "keywords") soup = Some m ->
          Soup.get m "content" = Some "a, b, c" ->
          meta_keywords r = ["a"; "b"; "c"])
    /\ (forall x y, Soup.find_all "h2" soup = [x; y] -> length (h2_tags r) = 2%nat).
Proof.
  intros Hu Hf soup. exists (seo_of_soup env soup).
  split; [apply (seo_analyze_run env competitor u); assumption|].
  split; [reflexivity|]. split; [|split; [|split]].
  - cbn. rewrite length_take. lia.
  - intros m c Hm Hc Hne. cbn. unfold keywords_of, meta_content. rewrite Hm, Hc.
    destruct c; [congruence|reflexivity].
  - intros m Hm Hc. cbn. unfold keywords_of, meta_content. rewrite Hm, Hc. reflexivity.
  - intros x y H. cbn. rewrite H. reflexivity.
Qed.

Lemma seo_keywords_and_h2_witness :
  exists r,
    fst (seo_analyze demo_env acme (fresh "seo", world0)) = Return (Some r)
    /\ meta_keywords r = ["a"; "b"; "c"]
    /\ h2_tags r = ["Pricing"; "Contact"].
Proof.
  destruct (seo_keywords_and_h2 demo_env acme "https://acme.test" (fresh "seo", world0)
              (ok_response "page") eq_refl eq_refl) as (r & Hr & Hh & _ & _ & Hk & _).
  exists r. split; [exact Hr|]. split; [|exact Hh].
  eapply Hk; reflexivity.
Defined.

(** ** The headings of the web analyzer *)

Lemma collect_level (t : string) (l : list node) :
  In t heading_levels ->
  flat_map (fun heading =>
              let text := Soup.get_text_strip heading in
              if Py.truthy text then [t +:+ ": " +:+ text] else [])
           (List.filter (Soup.is_tag t) l)
  = map render (of_level t (flat_map heading_of l)).
Proof.
  intros Ht. induction l as [|n l IH]; [reflexivity|].
  cbn [List.filter flat_map]. unfold of_level in *.
  rewrite List.filter_app, map_app, <- IH. clear IH.
  destruct n as [x|t' a cs]; [reflexivity|].
  cbn [Soup.is_tag heading_of].
  destruct (String.eqb t' t) eqn:E.
  - apply String.eqb_eq in E. subst t'.
    replace (existsb (String.eqb t) heading_levels) with true
      by (symmetry; apply existsb_exists; exists t; split; [exact Ht|apply String.eqb_refl]).
    cbn [flat_map]. destruct (Py.truthy _); cbn; [rewrite String.eqb_refl|]; reflexivity.
  - destruct (existsb _ heading_levels); [|reflexivity].
    destruct (Py.truthy _); cbn; [rewrite E|]; reflexivity.
Qed.

Lemma collect_headings_levels (soup : node) :
  take 20 (collect_headings soup) = level_order_headings soup.
Proof.
  unfold collect_headings, level_order_headings, headings_in_order, Soup.find_all.
  cbn [flat_map]. rewrite app_nil_r, !map_app.
  rewrite !collect_level; [reflexivity| | |]; cbn; auto.
Qed.

Lemma web_analyze_run (env : Env) (competitor : Competitor) (u : string) (s : AS)
  (response : Response) :
  url competitor = Some u ->
  fst (fetch_url env u s) = Return response ->
  exists r, fst (web_analyze env competitor s) = Return (Some r)
            /\ headings r = take 20 (collect_headings (BeautifulSoup env (resp_text response))).
Proof.
  intros Hu Hf. unfold web_analyze. rewrite Hu. unfold bind, loop_time, gets.
  destruct (fetch_url env u s) as [[r|e] s']; cbn in Hf; [|discriminate].
  injection Hf as ->. eexists. split; reflexivity.
Qed.

Lemma heading_of_shape (n : node) (h : string * string) :
  In h (heading_of n) -> In (fst h) heading_levels /\ snd h <> "".
Proof.
  destruct n as [x|t a cs]; cbn [heading_of]; [intros []|].
  destruct (existsb (String.eqb t) heading_levels) eqn:E; [|intros []].
  destruct (Py.truthy _) eqn:T; [|intros []].
  intros [<-|[]]. cbn [fst snd]. split.
  - apply existsb_exists in E. destruct E as (x & Hx & Hxe).
    apply String.eqb_eq in Hxe. subst x. exact Hx.
  - intros H. rewrite H in T. discriminate.
Qed.

(** C2, as the code has it: the headings of the web result are the first
    twenty of the list made of the non-empty [h1] headings in document
    order, then the non-empty [h2] ones, then the non-empty [h3] ones; they
    are grouped by level, not interleaved. There are at most twenty, and
    each entry is a level, a colon and the non-empty stripped text of a
    heading of that level. *)
Theorem web_headings_by_level (env : Env) (competitor : Competitor) (u : string)
  (s : AS) (response : Response) :
  url competitor = Some u ->
  fst (fetch_url env u s) = Return response ->
  let soup := BeautifulSoup env (resp_text response) in
  exists r,
    fst (web_analyze env competitor s) = Return (Some r)
    /\ headings r = level_order_headings soup
    /\ (length (headings r) <= 20)%nat
    /\ (forall e, In e (headings r) ->
          exists level text,
            e = level +:+ ": " +:+ text /\ In level heading_levels /\ text <> ""
            /\ In (level, text) (headings_in_order soup)).
Proof.
  intros Hu Hf soup.
  destruct (web_analyze_run env competitor u s response Hu Hf) as (r & Hr & Hh).
  exists r. split; [exact Hr|]. rewrite Hh, collect_headings_levels. fold soup.
  split; [reflexivity|]. split.
  - unfold level_order_headings. rewrite length_take. lia.
  - intros e He. unfold level_order_headings in He.
    apply list_elem_of_In, elem_of_take in He. destruct He as (i & He & _).
    apply list_elem_of_lookup_2, list_elem_of_In, in_map_iff in He.
    destruct He as ([level text] & <- & Hin). exists level, text.
    assert (Hin' : In (level, text) (headings_in_order soup)).
    { unfold of_level in Hin. rewrite !in_app_iff, !filter_In in Hin. tauto. }
    split; [reflexivity|].
    assert (Hn := Hin'). unfold headings_in_order in Hn. apply in_flat_map in Hn.
    destruct Hn as (n & _ & Hh'). apply heading_of_shape in Hh'.
    cbn [fst snd] in Hh'. destruct Hh' as [H1 H2].
    repeat split; assumption.
Qed.

Lemma web_headings_by_level_witness :
  exists r,
    fst (web_analyze demo_env acme (fresh "web", world0)) = Return (Some r)
    /\ headings r = ["h1: AcmeInc"; "h2: Pricing"; "h2: Contact"].
Proof.
  destruct (web_headings_by_level demo_env acme "https://acme.test" (fresh "web", world0)
              (ok_response "page") eq_refl eq_refl) as (r & Hr & Hh & _).
  exists r. split; [exact Hr|]. rewrite Hh. reflexivity.
Defined.

(** C2 fails as stated: on a page whose first heading is an [h2] followed
    by an [h1], the web result lists the [h1] first, while the order of
    appearance has the [h2] first. *)
Lemma web_headings_not_in_document_order :
  exists r,
    fst (web_analyze demo_env acme (fresh "web", world0)) = Return (Some r)
    /\ headings r = ["h1: AcmeInc"; "h2: Pricing"; "h2: Contact"]
    /\ document_order_headings acme_page = ["h2: Pricing"; "h1: AcmeInc"; "h2: Contact"]
    /\ headings r <> document_order_headings acme_page.
Proof.
  destruct (web_analyze_run demo_env acme "https://acme.test" (fresh "web", world0)
              (ok_response "page") eq_refl eq_refl) as (r & Hr & Hh).
  exists r. split; [exact Hr|]. rewrite Hh.
  split; [reflexivity|]. split; [reflexivity|]. discriminate.
Qed.

(** ** The CSV exporter *)

(** C3 fails as stated: for a result whose news item has a snippet and whose
    social profile has a following count, the table has six data rows and
    none of them carries the snippet or the following count. *)
Lemma export_csv_misses_scalars :
  export_csv demo_env full_result
  = [ ["Section"; "Field"; "Value"];
      ["Meta"; "Competitor"; "Acme"];
      ["Meta"; "Analyzed At"; "2024-01-01T12:00:00+00:00"];
      ["News"; "Total Mentions"; "1"];
      ["News"; "Article 1 Title"; "Acme ships"];
      ["News"; "Article 1 URL"; "https://n.test/1"];
      ["News"; "Article 1 Source"; "The Wire"];
      ["Social (twitter)"; "Handle"; "@acme"];
      ["Social (twitter)"; "Followers"; "1200"];
      ["Social (twitter)"; "Bio"; "we ship"] ]
  /\ In "Acme ships it" (scalar_cells demo_env full_result)
  /\ In "77" (scalar_cells demo_env full_result)
  /\ ~ has_row (export_csv demo_env full_result) "Acme ships it"
  /\ ~ has_row (export_csv demo_env full_result) "77"
  /\ ~ every_scalar_has_a_row demo_env full_result.
Proof.
  assert (E : export_csv demo_env full_result
              = [ ["Section"; "Field"; "Value"];
                  ["Meta"; "Competitor"; "Acme"];
                  ["Meta"; "Analyzed At"; "2024-01-01T12:00:00+00:00"];
                  ["News"; "Total Mentions"; "1"];
                  ["News"; "Article 1 Title"; "Acme ships"];
                  ["News"; "Article 1 URL"; "https://n.test/1"];
                  ["News"; "Article 1 Source"; "The Wire"];
                  ["Social (twitter)"; "Handle"; "@acme"];
                  ["Social (twitter)"; "Followers"; "1200"];
                  ["Social (twitter)"; "Bio"; "we ship"] ]) by (vm_compute; reflexivity).
  assert (S1 : In "Acme ships it" (scalar_cells demo_env full_result))
    by (vm_compute; tauto).
  assert (S2 : In "77" (scalar_cells demo_env full_result)) by (vm_compute; tauto).
  assert (N1 : ~ has_row (export_csv demo_env full_result) "Acme ships it").
  { rewrite E. intros (sec & field & H). cbn in H.
    repeat (destruct H as [H|H]; [discriminate|]). exact H. }
  assert (N2 : ~ has_row (export_csv demo_env full_result) "77").
  { rewrite E. intros (sec & field & H). cbn in H.
    repeat (destruct H as [H|H]; [discriminate|]). exact H. }
  repeat split; try assumption.
  intros H. apply N2, H, S2.
Qed.

(** The same on the result of a run: the snippet the news analyzer extracts
    from the feed reaches no row of the table. *)
Example run_snippet_not_exported :
  exists r,
    fst (_run_analysis demo_env acme_li None true world0) = Return r
    /\ In "Acme ships it" (scalar_cells demo_env r)
    /\ ~ has_row (export_csv demo_env r) "Acme ships it".
Proof.
  eexists. split; [vm_compute; reflexivity|].
  split; [vm_compute; tauto|].
  intros (sec & field & H). vm_compute in H.
  repeat (destruct H as [H|H]; [discriminate|]). exact H.
Qed.

Lemma has_row_app (a b : list (list string)) (v : string) :
  has_row a v \/ has_row b v -> has_row (a ++ b) v.
Proof.
  intros [(s & f & H)|(s & f & H)]; exists s, f; apply in_or_app; auto.
Qed.

Lemma has_row_cons (x : list string) (l : list (list string)) (v : string) :
  has_row l v -> has_row (x :: l) v.
Proof. intros (s & f & H). exists s, f. right. exact H. Qed.

Lemma in_enumerate {A} (l : list A) (x : A) :
  In x l -> exists i, In (i, x) (enumerate l).
Proof.
  intros H. apply list_elem_of_In, list_elem_of_lookup in H. destruct H as [i H].
  exists i. apply list_elem_of_In. unfold enumerate.
  apply list_elem_of_lookup. exists i. rewrite list_lookup_imap, H. reflexivity.
Qed.

Lemma length_enumerate {A} (l : list A) : length (enumerate l) = length l.
Proof. apply length_imap. Qed.

Ltac row_here :=
  unfold has_row; eexists _, _; cbn; repeat (first [left; reflexivity | right]).

Lemma web_scalars_rows (w : WebAnalysisResult) (v : string) :
  In v (web_scalars w) -> has_row (web_rows w) v.
Proof.
  unfold web_scalars, web_rows. intros H. apply has_row_app. left.
  destruct w as [t d hs lc ic te ps lt]; cbn in *.
  destruct t, d; cbn in H; repeat (destruct H as [<-|H]; [row_here|]); destruct H.
Qed.

Lemma seo_scalars_rows (s : SEOAnalysisResult) (v : string) :
  In v (seo_scalars s) -> has_row (seo_rows s) v.
Proof.
  unfold seo_scalars, seo_rows. intros H. apply has_row_app. left.
  destruct s as [t d k h1 h2 c r og sd]; cbn in *.
  destruct t, d, c, r; cbn in H; repeat (destruct H as [<-|H]; [row_here|]); destruct H.
Qed.

Lemma item_exported_rows (l : list NewsItem) (v : string) :
  In v (flat_map item_exported l) -> has_row (flat_map article_rows (enumerate l)) v.
Proof.
  intros H. apply in_flat_map in H. destruct H as (it & Hit & Hv).
  destruct (in_enumerate l it Hit) as [i Hi].
  assert (R : has_row (article_rows (i, it)) v).
  { unfold item_exported in Hv. unfold article_rows.
    destruct it as [t u s p sn]; cbn in *.
    destruct s; cbn in Hv; repeat (destruct Hv as [<-|Hv]; [row_here|]); destruct Hv. }
  destruct R as (sec & field & R). exists sec, field.
  apply in_flat_map. exists (i, it). auto.
Qed.

Lemma profile_exported_rows (l : list SocialProfile) (v : string) :
  In v (flat_map profile_exported l) -> has_row (flat_map profile_rows l) v.
Proof.
  intros H. apply in_flat_map in H. destruct H as (p & Hp & Hv).
  assert (R : has_row (profile_rows p) v).
  { unfold profile_exported in Hv. unfold profile_rows.
    destruct p as [pl h f fg pc b ve]; cbn in *.
    destruct f, b as [[|c b]|]; cbn in Hv |- *;
      repeat (destruct Hv as [<-|Hv]; [row_here|]); destruct Hv. }
  destruct R as (sec & field & R). exists sec, field.
  apply in_flat_map. exists p. auto.
Qed.

Lemma exported_cells_rows (env : Env) (r : AnalysisResult) (v : string) :
  In v (exported_cells env r) -> has_row (export_csv env r) v.
Proof.
  unfold exported_cells, export_csv. rewrite !in_app_iff.
  intros [H|[H|[H|[H|H]]]]; apply has_row_app.
  - left. cbn in H. destruct H as [<-|[<-|[]]]; row_here.
  - right. apply has_row_app. left. destruct (web r); [|destruct H].
    apply web_scalars_rows. exact H.
  - right. apply has_row_app. right. apply has_row_app. left.
    destruct (seo r); [|destruct H]. apply seo_scalars_rows. exact H.
  - right. do 2 (apply has_row_app; right). apply has_row_app. left.
    destruct (news r) as [n|]; [|destruct H]. cbn in H |- *. unfold news_rows.
    destruct H as [<-|H]; [row_here|].
    apply has_row_cons, item_exported_rows. exact H.
  - right. do 3 (apply has_row_app; right).
    destruct (social r) as [s|]; [|destruct H]. cbn in H |- *.
    apply profile_exported_rows. exact H.
Qed.

Lemma length_article_rows (l : list (nat * NewsItem)) :
  length (flat_map article_rows l) = (3 * length l)%nat.
Proof.
  induction l as [|[i it] l IH]; [reflexivity|].
  cbn [flat_map]. rewrite length_app, IH. cbn. lia.
Qed.

Lemma length_profile_rows (l : list SocialProfile) :
  length (flat_map profile_rows l) = list_sum (map profile_row_count l).
Proof.
  induction l as [|p l IH]; [reflexivity|].
  cbn [flat_map map list_sum]. rewrite length_app, IH. f_equal.
  unfold profile_rows, profile_row_count.
  destruct (followers p), (Py.truthy_opt (bio p)); reflexivity.
Qed.

Lemma export_csv_length (env : Env) (r : AnalysisResult) :
  length (export_csv env r) = row_count r.
Proof.
  unfold export_csv, row_count. rewrite !length_app.
  assert (Hw : length (section_rows web_rows (web r))
               = match web r with
                 | Some w => (7 + Nat.min 10 (length (headings w)))%nat
                 | None => 0%nat
                 end).
  { destruct (web r) as [w|]; [|reflexivity]. cbn [section_rows]. unfold web_rows.
    rewrite length_app, length_map, length_enumerate, length_take. reflexivity. }
  assert (Hs : length (section_rows seo_rows (seo r))
               = match seo r with
                 | Some s => (5 + length (h1_tags s) + Nat.min 5 (length (h2_tags s))
                              + length (og_tags s))%nat
                 | None => 0%nat
                 end).
  { destruct (seo r) as [s|]; [|reflexivity]. cbn [section_rows]. unfold seo_rows.
    rewrite !length_app, !length_map, !length_enumerate, length_take. cbn. lia. }
  assert (Hn : length (section_rows news_rows (news r))
               = match news r with
                 | Some n => (1 + 3 * Nat.min 10 (length (items n)))%nat
                 | None => 0%nat
                 end).
  { destruct (news r) as [n|]; [|reflexivity]. cbn [section_rows]. unfold news_rows.
    cbn [length]. rewrite length_article_rows, length_enumerate, length_take. lia. }
  assert (Hp : length (section_rows social_rows (social r))
               = match social r with
                 | Some s => list_sum (map profile_row_count (profiles s))
                 | None => 0%nat
                 end).
  { destruct (social r) as [s|]; [|reflexivity]. apply length_profile_rows. }
  rewrite Hw, Hs, Hn, Hp. cbn [length]. lia.
Qed.

Lemma article_rows_erase (g : nat -> nat) (l : list NewsItem) :
  flat_map article_rows (imap (fun i x => (g i, x)) (map erase_item l))
  = flat_map article_rows (imap (fun i x => (g i, x)) l).
Proof.
  revert g. induction l as [|it l IH]; intros g; [reflexivity|].
  cbn [map imap flat_map]. f_equal. apply (IH (fun i => g (S i))).
Qed.

Lemma profile_rows_erase (l : list SocialProfile) :
  flat_map profile_rows (map erase_profile l) = flat_map profile_rows l.
Proof.
  induction l as [|p l IH]; [reflexivity|].
  cbn [map flat_map]. rewrite IH. reflexivity.
Qed.

Lemma export_csv_erase (env : Env) (r : AnalysisResult) :
  export_csv env (erase_unexported r) = export_csv env r.
Proof.
  unfold export_csv. cbn [competitor_name analyzed_at web seo news social erase_unexported].
  do 2 f_equal. f_equal; [|f_equal].
  - destruct (seo r); reflexivity.
  - destruct (news r) as [n|]; [|reflexivity]. cbn [section_rows]. unfold news_rows.
    cbn [items total_mentions]. f_equal.
    rewrite <- fmap_take. apply (article_rows_erase (fun i => i)).
  - destruct (social r) as [s|]; [|reflexivity]. cbn [section_rows]. unfold social_rows.
    cbn [profiles]. apply profile_rows_erase.
Qed.

Lemma export_csv_three_columns (env : Env) (r : AnalysisResult) (row : list string) :
  In row (export_csv env r) -> length row = 3%nat.
Proof.
  unfold export_csv. rewrite !in_app_iff. intros [H|[H|[H|[H|H]]]].
  - cbn in H. destruct H as [<-|[<-|[<-|[]]]]; reflexivity.
  - destruct (web r) as [w|]; [|destruct H]. cbn [section_rows] in H. unfold web_rows in H.
    apply in_app_iff in H. destruct H as [H|H].
    + cbn in H. repeat (destruct H as [<-|H]; [reflexivity|]). destruct H.
    + apply in_map_iff in H. destruct H as ([i x] & <- & _). reflexivity.
  - destruct (seo r) as [s|]; [|destruct H]. cbn [section_rows] in H. unfold seo_rows in H.
    rewrite !in_app_iff, !in_map_iff in H. destruct H as [H|[H|[H|H]]].
    + cbn in H. repeat (destruct H as [<-|H]; [reflexivity|]). destruct H.
    + destruct H as ([i x] & <- & _). reflexivity.
    + destruct H as ([i x] & <- & _). reflexivity.
    + destruct H as ([k x] & <- & _). reflexivity.
  - destruct (news r) as [n|]; [|destruct H]. cbn [section_rows] in H. unfold news_rows in H.
    destruct H as [<-|H]; [reflexivity|]. apply in_flat_map in H.
    destruct H as ([i it] & _ & H). cbn in H.
    repeat (destruct H as [<-|H]; [reflexivity|]). destruct H.
  - destruct (social r) as [s|]; [|destruct H]. cbn [section_rows] in H.
    unfold social_rows in H. apply in_flat_map in H. destruct H as (p & _ & H).
    unfold profile_rows in H. rewrite !in_app_iff in H. destruct H as [H|[H|H]].
    + destruct H as [<-|[]]. reflexivity.
    + destruct (followers p); [|destruct H]. destruct H as [<-|[]]. reflexivity.
    + destruct (Py.truthy_opt (bio p)); [|destruct H]. destruct H as [<-|[]]. reflexivity.
Qed.

(** *** Labels of the table *)

Lemma length_append (a b : string) :
  String.length (a +:+ b) = (String.length a + String.length b)%nat.
Proof. induction a as [|c a IH]; norm_append; cbn; [reflexivity|]. rewrite IH. reflexivity. Qed.

Lemma append_same_length (a b s t : string) :
  String.length a = String.length b -> a +:+ s = b +:+ t -> a = b /\ s = t.
Proof.
  revert b. induction a as [|c a IH]; intros [|c' b] Hl H; norm_append;
    try discriminate Hl.
  - auto.
  - injection H as -> H. injection Hl as Hl. destruct (IH b Hl H) as [-> ->]. auto.
Qed.

Lemma append_inv_tail (a b s : string) : a +:+ s = b +:+ s -> a = b.
Proof.
  intros H. assert (L := f_equal String.length H). rewrite !length_append in L.
  apply (append_same_length a b s s); [lia|exact H].
Qed.

Lemma append_eq_append (x a y b : string) :
  x +:+ a = y +:+ b ->
  (exists z, b = z +:+ a) \/ (exists z, a = z +:+ b).
Proof.
  revert y. induction x as [|c x IH]; intros y H; norm_append.
  - right. exists y. exact H.
  - destruct y as [|c' y]; norm_append.
    + left. exists (String c x). norm_append. symmetry. exact H.
    + injection H as _ H. apply (IH y H).
Qed.

Lemma eqb_append_l (p a b : string) :
  String.eqb (p +:+ a) (p +:+ b) = String.eqb a b.
Proof.
  induction p as [|c p IH]; norm_append; [reflexivity|].
  cbn [String.eqb]. rewrite Ascii.eqb_refl. exact IH.
Qed.

Lemma eqb_append_r (a b s : string) :
  String.eqb (a +:+ s) (b +:+ s) = String.eqb a b.
Proof.
  destruct (String.eqb a b) eqn:E.
  - apply String.eqb_eq in E. subst b. apply String.eqb_refl.
  - apply String.eqb_neq. intros H. apply String.eqb_neq in E.
    apply E, (append_inv_tail a b s H).
Qed.

Lemma eqb_clash (a b s t : string) :
  clash s t -> String.eqb (a +:+ s) (b +:+ t) = false.
Proof.
  intros [H1 H2]. apply String.eqb_neq. intros H.
  destruct (append_eq_append a s b t H) as [[z Hz]|[z Hz]];
    [apply (H1 z Hz)|apply (H2 z Hz)].
Qed.

Lemma str_int_eqb (a b : Z) (s : string) :
  String.eqb (Py.str_int a +:+ s) (Py.str_int b +:+ s) = Z.eqb a b.
Proof.
  rewrite eqb_append_r. destruct (Z.eqb a b) eqn:E.
  - apply Z.eqb_eq in E. subst b. apply String.eqb_refl.
  - apply String.eqb_neq. intros H. apply Z.eqb_neq in E. apply E.
    unfold Py.str_int in H. apply (inj pretty) in H. exact H.
Qed.

Lemma numbered_eqb (label suffix : string) (i j : nat) :
  String.eqb (numbered label i suffix) (numbered label j suffix) = Nat.eqb i j.
Proof.
  unfold numbered. rewrite !eqb_append_l, str_int_eqb.
  destruct (Nat.eqb i j) eqn:E.
  - apply Nat.eqb_eq in E. subst j. apply Z.eqb_refl.
  - apply Nat.eqb_neq in E. apply Z.eqb_neq. lia.
Qed.

Lemma numbered_clash (label s t : string) (i j : nat) :
  clash s t -> String.eqb (numbered label i s) (numbered label j t) = false.
Proof. intros H. unfold numbered. rewrite !eqb_append_l. apply eqb_clash, H. Qed.

Lemma clash_title_url : clash " Title" " URL".
Proof.
  split; intros z H.
  - apply (f_equal String.length) in H. rewrite length_append in H. cbn in H. lia.
  - destruct z as [|c1 [|c2 [|c3 z]]]; norm_append; try discriminate H.
    apply (f_equal String.length) in H. cbn in H. rewrite length_append in H.
    cbn in H. lia.
Qed.

Lemma clash_title_source : clash " Title" " Source".
Proof.
  split; intros z H.
  - destruct z as [|c1 [|c2 z]]; norm_append; try discriminate H.
    apply (f_equal String.length) in H. cbn in H. rewrite length_append in H.
    cbn in H. lia.
  - apply (f_equal String.length) in H. rewrite length_append in H. cbn in H. lia.
Qed.

Lemma clash_url_source : clash " URL" " Source".
Proof.
  split; intros z H.
  - destruct z as [|c1 [|c2 [|c3 [|c4 z]]]]; norm_append; try discriminate H.
    apply (f_equal String.length) in H. cbn in H. rewrite length_append in H.
    cbn in H. lia.
  - apply (f_equal String.length) in H. rewrite length_append in H. cbn in H. lia.
Qed.

Lemma clash_sym (s t : string) : clash s t -> clash t s.
Proof. intros [H1 H2]. split; assumption. Qed.

(** *** Reading the table by section and field *)

Lemma cells_app (sec field : string) (a b : list (list string)) :
  cells sec field (a ++ b) = (cells sec field a ++ cells sec field b)%list.
Proof. unfold cells. apply flat_map_app. Qed.

Lemma cells_cons (sec field s f v : string) (rows : list (list string)) :
  cells sec field ([s; f; v] :: rows)
  = ((if String.eqb s sec && String.eqb f field then [v] else [])
     ++ cells sec field rows)%list.
Proof. reflexivity. Qed.

Lemma cells_flat_map {A} (sec field : string) (f : A -> list (list string)) (l : list A) :
  cells sec field (flat_map f l) = flat_map (fun x => cells sec field (f x)) l.
Proof.
  induction l as [|x l IH]; [reflexivity|].
  cbn [flat_map]. rewrite cells_app, IH. reflexivity.
Qed.

Lemma cells_map {A} (sec field : string) (f : A -> list string) (l : list A) :
  cells sec field (map f l) = flat_map (fun x => cells sec field [f x]) l.
Proof.
  induction l as [|x l IH]; [reflexivity|].
  cbn [map flat_map]. rewrite <- IH.
  change (f x :: map f l) with ([f x] ++ map f l)%list. apply cells_app.
Qed.

Lemma flat_map_pointwise {A B} (f g : A -> list B) (l : list A) :
  (forall x, f x = g x) -> flat_map f l = flat_map g l.
Proof.
  intros H. induction l as [|x l IH]; [reflexivity|].
  cbn [flat_map]. rewrite H, IH. reflexivity.
Qed.

Lemma flat_map_nothing {A B} (f : A -> list B) (l : list A) :
  (forall x, f x = []) -> flat_map f l = [].
Proof.
  intros H. induction l as [|x l IH]; [reflexivity|].
  cbn [flat_map]. rewrite H, IH. reflexivity.
Qed.

(** The rows of one section are not read under another. *)
Lemma cells_elsewhere (sec field : string) (rows : list (list string)) :
  (forall row, In row rows ->
     exists s f v, row = [s; f; v] /\ String.eqb s sec = false) ->
  cells sec field rows = [].
Proof.
  intros H. unfold cells. induction rows as [|row rows IH]; [reflexivity|].
  cbn [flat_map]. rewrite IH by (intros x Hx; apply H; right; exact Hx).
  destruct (H row (or_introl eq_refl)) as (s & f & v & -> & E). rewrite E. reflexivity.
Qed.

Lemma skip_numbered {A B} (t : nat -> bool) (g : A -> B) (l : list A) (h : nat -> nat) :
  (forall i, t (h i) = false) ->
  flat_map (fun e => if t (fst e) then [g (snd e)] else [])
           (imap (fun i x => (h i, x)) l) = [].
Proof.
  revert h. induction l as [|x l IH]; intros h H; [reflexivity|].
  cbn [imap flat_map fst snd]. rewrite H.
  change (imap ((fun i y => (h i, y)) ∘ S) l) with (imap (fun i y => (h (S i), y)) l).
  apply (IH (fun i => h (S i))). intros i. apply H.
Qed.

(** Of the numbered entries of a list, the one at position [j]. *)
Lemma pick_numbered {A B} (t : nat -> bool) (g : A -> B) (j : nat) (l : list A)
  (h : nat -> nat) :
  (forall i, t (h i) = Nat.eqb i j) ->
  flat_map (fun e => if t (fst e) then [g (snd e)] else [])
           (imap (fun i x => (h i, x)) l)
  = match l !! j with Some x => [g x] | None => [] end.
Proof.
  revert j h. induction l as [|x l IH]; intros j h H; [reflexivity|].
  cbn [imap flat_map fst snd]. rewrite H.
  change (imap ((fun i y => (h i, y)) ∘ S) l) with (imap (fun i y => (h (S i), y)) l).
  destruct j as [|j]; cbn [Nat.eqb lookup list_lookup].
  - rewrite (skip_numbered t g l (fun i => h (S i))); [reflexivity|].
    intros i. rewrite H. reflexivity.
  - apply (IH j (fun i => h (S i))). intros i. rewrite H. reflexivity.
Qed.

Lemma pick_enumerate {A B} (t : nat -> bool) (g : A -> B) (j : nat) (l : list A) :
  (forall i, t i = Nat.eqb i j) ->
  flat_map (fun e => if t (fst e) then [g (snd e)] else []) (enumerate l)
  = match l !! j with Some x => [g x] | None => [] end.
Proof. intros H. apply (pick_numbered t g j l (fun i => i)). exact H. Qed.

Lemma skip_enumerate {A B} (t : nat -> bool) (g : A -> B) (l : list A) :
  (forall i, t i = false) ->
  flat_map (fun e => if t (fst e) then [g (snd e)] else []) (enumerate l) = [].
Proof. intros H. apply (skip_numbered t g l (fun i => i)). exact H. Qed.

Ltac label_eqb :=
  unfold numbered, social_section;
  rewrite ?append_cons, ?append_nil;
  cbn [String.eqb Ascii.eqb Bool.eqb andb].

Lemma cells_numbered_pick {A} (sec label suffix : string) (g : A -> string)
  (l : list A) (j : nat) :
  cells sec (numbered label j suffix)
    (map (fun '(i, x) => [sec; numbered label i suffix; g x]) (enumerate l))
  = opt_cell (g <$> l !! j).
Proof.
  rewrite cells_map.
  rewrite (flat_map_pointwise _
             (fun e => if Nat.eqb (fst e) j then [g (snd e)] else [])).
  - rewrite (pick_enumerate (fun i => Nat.eqb i j) g j l) by reflexivity.
    destruct (l !! j); reflexivity.
  - intros [i x]. rewrite cells_cons, String.eqb_refl, numbered_eqb. cbn [andb fst snd].
    destruct (Nat.eqb i j); reflexivity.
Qed.

Lemma cells_numbered_skip {A} (sec field s label suffix : string) (g : A -> string)
  (l : list A) :
  (forall i, String.eqb s sec && String.eqb (numbered label i suffix) field = false) ->
  cells sec field (map (fun '(i, x) => [s; numbered label i suffix; g x]) (enumerate l))
  = [].
Proof.
  intros H. rewrite cells_map. apply flat_map_nothing. intros [i x].
  rewrite cells_cons, H. reflexivity.
Qed.

Ltac fixed_rows :=
  rewrite ?cells_cons;
  unfold numbered, social_section;
  rewrite ?append_cons, ?append_nil;
  cbn [String.eqb Ascii.eqb Bool.eqb andb app cells flat_map];
  rewrite ?String.eqb_refl;
  cbn [andb app].

Lemma web_rows_table (w : WebAnalysisResult) : web_table w (web_rows w).
Proof.
  unfold web_table, web_rows.
  repeat split; try intros i; rewrite cells_app.
  1-7: rewrite (cells_numbered_skip _ _ "Web" "Heading" "" (fun h => h))
         by (intros i; label_eqb; reflexivity);
       fixed_rows; reflexivity.
  rewrite (cells_numbered_pick "Web" "Heading" "" (fun h => h)).
  fixed_rows. destruct (take 10 (headings w) !! i); reflexivity.
Qed.

Lemma cells_og_rows (field : string) (og : list (string * string)) :
  cells "SEO" field (map (fun '(key, value) => ["SEO"; "OG: " +:+ key; value]) og)
  = map snd (List.filter (fun kv => String.eqb ("OG: " +:+ fst kv) field) og).
Proof.
  induction og as [|[k v] og IH]; [reflexivity|].
  cbn [map List.filter fst]. rewrite cells_cons, IH, String.eqb_refl. cbn [andb].
  destruct (String.eqb ("OG: " +:+ k) field); reflexivity.
Qed.

Lemma filter_nothing {A} (c : A -> bool) (l : list A) :
  (forall x, c x = false) -> List.filter c l = [].
Proof.
  intros H. induction l as [|x l IH]; [reflexivity|]. cbn. rewrite H. exact IH.
Qed.

Lemma filter_pointwise {A} (c d : A -> bool) (l : list A) :
  (forall x, c x = d x) -> List.filter c l = List.filter d l.
Proof.
  intros H. induction l as [|x l IH]; [reflexivity|]. cbn. rewrite H, IH. reflexivity.
Qed.

Lemma seo_rows_table (s : SEOAnalysisResult) : seo_table s (seo_rows s).
Proof.
  unfold seo_table, seo_rows.
  repeat split; try intros i; rewrite !cells_app.
  1-5: rewrite (cells_numbered_skip _ _ "SEO" "H1" "" (fun h => h))
         by (intros i; label_eqb; reflexivity);
       rewrite (cells_numbered_skip _ _ "SEO" "H2" "" (fun h => h))
         by (intros i; label_eqb; reflexivity);
       rewrite cells_og_rows, filter_nothing
         by (intros [k v]; label_eqb; reflexivity);
       fixed_rows; reflexivity.
  - rewrite (cells_numbered_pick "SEO" "H1" "" (fun h => h)).
    rewrite (cells_numbered_skip _ _ "SEO" "H2" "" (fun h => h))
      by (intros j; label_eqb; reflexivity).
    rewrite cells_og_rows, filter_nothing by (intros [k v]; label_eqb; reflexivity).
    fixed_rows. cbn [map]. rewrite app_nil_r.
    destruct (h1_tags s !! i); reflexivity.
  - rewrite (cells_numbered_skip _ _ "SEO" "H1" "" (fun h => h))
      by (intros j; label_eqb; reflexivity).
    rewrite (cells_numbered_pick "SEO" "H2" "" (fun h => h)).
    rewrite cells_og_rows, filter_nothing by (intros [k v]; label_eqb; reflexivity).
    fixed_rows. cbn [map]. rewrite app_nil_r.
    destruct (take 5 (h2_tags s) !! i); reflexivity.
  - rewrite (cells_numbered_skip _ _ "SEO" "H1" "" (fun h => h))
      by (intros j; label_eqb; reflexivity).
    rewrite (cells_numbered_skip _ _ "SEO" "H2" "" (fun h => h))
      by (intros j; label_eqb; reflexivity).
    rewrite cells_og_rows. fixed_rows. reflexivity.
Qed.

Lemma article_rows_cells (i j : nat) (it : NewsItem) :
  cells "News" (numbered "Article" j " Title") (article_rows (i, it))
  = (if Nat.eqb i j then [item_title it] else [])
  /\ cells "News" (numbered "Article" j " URL") (article_rows (i, it))
     = (if Nat.eqb i j then [item_url it] else [])
  /\ cells "News" (numbered "Article" j " Source") (article_rows (i, it))
     = (if Nat.eqb i j then [Py.or_empty (source it)] else []).
Proof.
  unfold article_rows. rewrite !cells_cons, !String.eqb_refl, !numbered_eqb.
  rewrite (numbered_clash "Article" " URL" " Title") by apply clash_sym, clash_title_url.
  rewrite (numbered_clash "Article" " Source" " Title")
    by apply clash_sym, clash_title_source.
  rewrite (numbered_clash "Article" " Title" " URL") by apply clash_title_url.
  rewrite (numbered_clash "Article" " Source" " URL") by apply clash_sym, clash_url_source.
  rewrite (numbered_clash "Article" " Title" " Source") by apply clash_title_source.
  rewrite (numbered_clash "Article" " URL" " Source") by apply clash_url_source.
  cbn [andb app cells flat_map]. destruct (Nat.eqb i j); repeat split.
Qed.

Lemma news_rows_table (n : NewsAnalysisResult) : news_table n (news_rows n).
Proof.
  unfold news_table, news_rows. split.
  - rewrite cells_cons, !String.eqb_refl. cbn [andb app]. f_equal.
    rewrite cells_flat_map. apply flat_map_nothing. intros [i it].
    unfold article_rows. fixed_rows. reflexivity.
  - intros j. rewrite !cells_cons, !cells_flat_map.
    replace (String.eqb "Total Mentions" (numbered "Article" j " Title")) with false
      by (label_eqb; reflexivity).
    replace (String.eqb "Total Mentions" (numbered "Article" j " URL")) with false
      by (label_eqb; reflexivity).
    replace (String.eqb "Total Mentions" (numbered "Article" j " Source")) with false
      by (label_eqb; reflexivity).
    rewrite andb_false_r. cbn [app].
    repeat split.
    + rewrite (flat_map_pointwise _
                 (fun e => if Nat.eqb (fst e) j then [item_title (snd e)] else []))
        by (intros [i it]; apply article_rows_cells).
      rewrite (pick_enumerate (fun i => Nat.eqb i j) item_title j) by reflexivity.
      destruct (take 10 (items n) !! j); reflexivity.
    + rewrite (flat_map_pointwise _
                 (fun e => if Nat.eqb (fst e) j then [item_url (snd e)] else []))
        by (intros [i it]; apply article_rows_cells).
      rewrite (pick_enumerate (fun i => Nat.eqb i j) item_url j) by reflexivity.
      destruct (take 10 (items n) !! j); reflexivity.
    + rewrite (flat_map_pointwise _
                 (fun e => if Nat.eqb (fst e) j
                           then [(fun it => Py.or_empty (source it)) (snd e)] else []))
        by (intros [i it]; apply article_rows_cells).
      rewrite (pick_enumerate (fun i => Nat.eqb i j)
                 (fun it => Py.or_empty (source it)) j) by reflexivity.
      destruct (take 10 (items n) !! j); reflexivity.
Qed.

Lemma social_section_eqb (p q : string) :
  String.eqb (social_section q) (social_section p) = String.eqb q p.
Proof. unfold social_section. rewrite eqb_append_l, eqb_append_r. reflexivity. Qed.

Lemma flat_map_if_filter {A B} (c : A -> bool) (f : A -> list B) (l : list A) :
  flat_map (fun x => if c x then f x else []) l = flat_map f (List.filter c l).
Proof.
  induction l as [|x l IH]; [reflexivity|].
  cbn [flat_map List.filter]. destruct (c x); cbn [flat_map]; rewrite IH; reflexivity.
Qed.

Lemma flat_map_singleton {A B} (f : A -> B) (l : list A) :
  flat_map (fun x => [f x]) l = map f l.
Proof. induction l as [|x l IH]; [reflexivity|]. cbn. rewrite IH. reflexivity. Qed.

Lemma profile_rows_cells (p field : string) (q : SocialProfile) :
  cells (social_section p) field (profile_rows q)
  = if String.eqb (platform q) p
    then ((if String.eqb "Handle" field then [handle q] else [])
          ++ (if String.eqb "Followers" field then int_cell (followers q) else [])
          ++ (if String.eqb "Bio" field
              then (if Py.truthy_opt (bio q) then opt_cell (bio q) else []) else []))%list
    else [].
Proof.
  unfold profile_rows. fold (social_section (platform q)).
  rewrite !cells_app, cells_cons, social_section_eqb.
  destruct (followers q) as [f|], (bio q) as [[|c b]|]; cbn [Py.truthy_opt Py.truthy];
    rewrite ?cells_cons, ?social_section_eqb;
    destruct (String.eqb (platform q) p); cbn [andb app cells flat_map int_cell opt_cell
      Py.or_empty];
    destruct (String.eqb "Handle" field), (String.eqb "Followers" field),
      (String.eqb "Bio" field); reflexivity.
Qed.

Lemma social_rows_table (s : SocialAnalysisResult) : social_table s (social_rows s).
Proof.
  unfold social_table, social_rows. intros p. cbv zeta.
  assert (R : forall field,
             cells (social_section p) field (flat_map profile_rows (profiles s))
             = flat_map (fun q =>
                           (if String.eqb "Handle" field then [handle q] else [])
                           ++ (if String.eqb "Followers" field
                               then int_cell (followers q) else [])
                           ++ (if String.eqb "Bio" field
                               then (if Py.truthy_opt (bio q) then opt_cell (bio q) else [])
                               else []))%list
                        (List.filter (fun q => String.eqb (platform q) p) (profiles s))).
  { intros field. rewrite cells_flat_map, <- flat_map_if_filter.
    apply flat_map_pointwise. intros q. apply profile_rows_cells. }
  repeat split.
  - rewrite R, <- flat_map_singleton. apply flat_map_pointwise. intros q. reflexivity.
  - rewrite R. apply flat_map_pointwise. intros q. cbn. apply app_nil_r.
  - rewrite R. apply flat_map_pointwise. intros q. reflexivity.
  - intros field H1 H2 H3. rewrite R. apply flat_map_nothing. intros q.
    apply String.eqb_neq in H1, H2, H3.
    rewrite (String.eqb_sym "Handle"), H1, (String.eqb_sym "Followers"), H2,
      (String.eqb_sym "Bio"), H3.
    reflexivity.
Qed.

Lemma web_rows_section (w : WebAnalysisResult) (row : list string) :
  In row (web_rows w) -> exists f v, row = ["Web"; f; v].
Proof.
  unfold web_rows. rewrite in_app_iff, in_map_iff. intros [H|([i x] & <- & _)].
  - cbn in H. repeat (destruct H as [<-|H]; [eexists _, _; reflexivity|]). destruct H.
  - eexists _, _. reflexivity.
Qed.

Lemma seo_rows_section (s : SEOAnalysisResult) (row : list string) :
  In row (seo_rows s) -> exists f v, row = ["SEO"; f; v].
Proof.
  unfold seo_rows. rewrite !in_app_iff, !in_map_iff.
  intros [H|[([i x] & <- & _)|[([i x] & <- & _)|([k x] & <- & _)]]].
  - cbn in H. repeat (destruct H as [<-|H]; [eexists _, _; reflexivity|]). destruct H.
  - eexists _, _. reflexivity.
  - eexists _, _. reflexivity.
  - eexists _, _. reflexivity.
Qed.

Lemma news_rows_section (n : NewsAnalysisResult) (row : list string) :
  In row (news_rows n) -> exists f v, row = ["News"; f; v].
Proof.
  unfold news_rows. intros [<-|H]; [eexists _, _; reflexivity|].
  apply in_flat_map in H. destruct H as ([i it] & _ & H). cbn in H.
  repeat (destruct H as [<-|H]; [eexists _, _; reflexivity|]). destruct H.
Qed.

Lemma social_rows_section (s : SocialAnalysisResult) (row : list string) :
  In row (social_rows s) -> exists p f v, row = [social_section p; f; v].
Proof.
  unfold social_rows. intros H. apply in_flat_map in H. destruct H as (q & _ & H).
  unfold profile_rows in H. fold (social_section (platform q)) in H.
  rewrite !in_app_iff in H. destruct H as [H|[H|H]].
  - destruct H as [<-|[]]. eexists _, _, _. reflexivity.
  - destruct (followers q); [|destruct H]. destruct H as [<-|[]].
    eexists _, _, _. reflexivity.
  - destruct (Py.truthy_opt (bio q)); [|destruct H]. destruct H as [<-|[]].
    eexists _, _, _. reflexivity.
Qed.

Lemma cells_not_web (sec field : string) (o : option WebAnalysisResult) :
  String.eqb "Web" sec = false -> cells sec field (section_rows web_rows o) = [].
Proof.
  intros E. destruct o as [w|]; [|reflexivity]. apply cells_elsewhere.
  intros row H. destruct (web_rows_section w row H) as (f & v & ->). eauto.
Qed.

Lemma cells_not_seo (sec field : string) (o : option SEOAnalysisResult) :
  String.eqb "SEO" sec = false -> cells sec field (section_rows seo_rows o) = [].
Proof.
  intros E. destruct o as [s|]; [|reflexivity]. apply cells_elsewhere.
  intros row H. destruct (seo_rows_section s row H) as (f & v & ->). eauto.
Qed.

Lemma cells_not_news (sec field : string) (o : option NewsAnalysisResult) :
  String.eqb "News" sec = false -> cells sec field (section_rows news_rows o) = [].
Proof.
  intros E. destruct o as [n|]; [|reflexivity]. apply cells_elsewhere.
  intros row H. destruct (news_rows_section n row H) as (f & v & ->). eauto.
Qed.

Lemma cells_not_social (sec field : string) (o : option SocialAnalysisResult) :
  (forall p, String.eqb (social_section p) sec = false) ->
  cells sec field (section_rows social_rows o) = [].
Proof.
  intros E. destruct o as [s|]; [|reflexivity]. apply cells_elsewhere.
  intros row H. destruct (social_rows_section s row H) as (p & f & v & ->). eauto.
Qed.

Lemma export_cells_meta (env : Env) (r : AnalysisResult) (field : string) :
  cells "Meta" field (export_csv env r)
  = cells "Meta" field [ ["Meta"; "Competitor"; competitor_name r];
                         ["Meta"; "Analyzed At"; isoformat env (analyzed_at r)] ].
Proof.
  unfold export_csv. rewrite !cells_app.
  rewrite cells_not_web, cells_not_seo, cells_not_news, cells_not_social
    by (try intros p; label_eqb; reflexivity).
  rewrite !app_nil_r. reflexivity.
Qed.

Lemma export_cells_web (env : Env) (r : AnalysisResult) (field : string) :
  cells "Web" field (export_csv env r) = cells "Web" field (section_rows web_rows (web r)).
Proof.
  unfold export_csv. rewrite !cells_app.
  rewrite cells_not_seo, cells_not_news, cells_not_social
    by (try intros p; label_eqb; reflexivity).
  rewrite !app_nil_r. reflexivity.
Qed.

Lemma export_cells_seo (env : Env) (r : AnalysisResult) (field : string) :
  cells "SEO" field (export_csv env r) = cells "SEO" field (section_rows seo_rows (seo r)).
Proof.
  unfold export_csv. rewrite !cells_app.
  rewrite cells_not_web, cells_not_news, cells_not_social
    by (try intros p; label_eqb; reflexivity).
  rewrite !app_nil_r. reflexivity.
Qed.

Lemma export_cells_news (env : Env) (r : AnalysisResult) (field : string) :
  cells "News" field (export_csv env r)
  = cells "News" field (section_rows news_rows (news r)).
Proof.
  unfold export_csv. rewrite !cells_app.
  rewrite cells_not_web, cells_not_seo, cells_not_social
    by (try intros p; label_eqb; reflexivity).
  rewrite !app_nil_r. reflexivity.
Qed.

Lemma export_cells_social (env : Env) (r : AnalysisResult) (p field : string) :
  cells (social_section p) field (export_csv env r)
  = cells (social_section p) field (section_rows social_rows (social r)).
Proof.
  unfold export_csv. rewrite !cells_app.
  rewrite cells_not_web, cells_not_seo, cells_not_news by (label_eqb; reflexivity).
  rewrite !cells_cons.
  replace (String.eqb "Section" (social_section p)) with false by (label_eqb; reflexivity).
  replace (String.eqb "Meta" (social_section p)) with false by (label_eqb; reflexivity).
  reflexivity.
Qed.

Lemma export_csv_tables (env : Env) (r : AnalysisResult) :
  match web r with
  | Some w => web_table w (export_csv env r)
  | None => no_rows_under "Web" (export_csv env r)
  end
  /\ match seo r with
     | Some s => seo_table s (export_csv env r)
     | None => no_rows_under "SEO" (export_csv env r)
     end
  /\ match news r with
     | Some n => news_table n (export_csv env r)
     | None => no_rows_under "News" (export_csv env r)
     end
  /\ match social r with
     | Some s => social_table s (export_csv env r)
     | None => forall p, no_rows_under (social_section p) (export_csv env r)
     end.
Proof.
  split; [|split; [|split]].
  - destruct (web r) as [w|] eqn:E.
    + destruct (web_rows_table w) as (T1 & T2 & T3 & T4 & T5 & T6 & T7 & T8).
      unfold web_table. rewrite !export_cells_web, E. cbn [section_rows].
      split; [exact T1|]. split; [exact T2|]. split; [exact T3|]. split; [exact T4|].
      split; [exact T5|]. split; [exact T6|]. split; [exact T7|].
      intros i. rewrite export_cells_web, E. exact (T8 i).
    + intros f. rewrite export_cells_web, E. reflexivity.
  - destruct (seo r) as [s|] eqn:E.
    + destruct (seo_rows_table s) as (T1 & T2 & T3 & T4 & T5 & T6 & T7 & T8).
      unfold seo_table. rewrite !export_cells_seo, E. cbn [section_rows].
      split; [exact T1|]. split; [exact T2|]. split; [exact T3|]. split; [exact T4|].
      split; [exact T5|].
      split; [intros i; rewrite export_cells_seo, E; exact (T6 i)|].
      split; [intros i; rewrite export_cells_seo, E; exact (T7 i)|].
      intros k. rewrite export_cells_seo, E. exact (T8 k).
    + intros f. rewrite export_cells_seo, E. reflexivity.
  - destruct (news r) as [n|] eqn:E.
    + destruct (news_rows_table n) as [T1 T2].
      unfold news_table. split; [rewrite export_cells_news, E; exact T1|].
      intros i. rewrite !export_cells_news, E. exact (T2 i).
    + intros f. rewrite export_cells_news, E. reflexivity.
  - destruct (social r) as [s|] eqn:E.
    + intros p. destruct (social_rows_table s p) as (T1 & T2 & T3 & T4).
      cbv zeta. rewrite !export_cells_social, E. cbn [section_rows].
      split; [exact T1|]. split; [exact T2|]. split; [exact T3|].
      intros f H1 H2 H3. rewrite export_cells_social, E. exact (T4 f H1 H2 H3).
    + intros p f. rewrite export_cells_social, E. reflexivity.
Qed.

(** C3, as the code has it: the table starts with the header row and every
    row has three columns. Read by section and field, it has exactly one row
    under each scalar field the exporter writes, with that field's value (an
    absent title, description, address or directive gives an empty value):
    the competitor and the time of analysis under Meta; the seven fields of
    a web result; the five fields of an SEO result; the total of mentions of
    a news result. Each repeated field has one row per element, numbered
    from 1, up to the export caps: headings up to 10, every H1, H2 up to 5,
    every open-graph pair, and a Title, a URL and a Source row for each of
    the first 10 news items. Each social profile has one Handle row, a
    Followers row when the count is not null and a Bio row when the bio is
    not empty, and no row under any other field. A section that is absent
    has no row. The number of rows is the count these rows add up to, and the
    date and snippet of a news item, the following count, post count and
    verified flag of a profile and the structured data never reach the
    table. *)
Theorem export_csv_rows (env : Env) (r : AnalysisResult) :
  let rows := export_csv env r in
  head rows = Some ["Section"; "Field"; "Value"]
  /\ (forall row, In row rows -> length row = 3%nat)
  /\ cells "Meta" "Competitor" rows = [competitor_name r]
  /\ cells "Meta" "Analyzed At" rows = [isoformat env (analyzed_at r)]
  /\ match web r with
     | Some w => web_table w rows
     | None => no_rows_under "Web" rows
     end
  /\ match seo r with
     | Some s => seo_table s rows
     | None => no_rows_under "SEO" rows
     end
  /\ match news r with
     | Some n => news_table n rows
     | None => no_rows_under "News" rows
     end
  /\ match social r with
     | Some s => social_table s rows
     | None => forall p, no_rows_under (social_section p) rows
     end
  /\ length rows = row_count r
  /\ (forall v, In v (exported_cells env r) -> has_row rows v)
  /\ export_csv env (erase_unexported r) = rows.
Proof.
  intros rows. subst rows.
  destruct (export_csv_tables env r) as (Tw & Ts & Tn & Tp).
  split; [reflexivity|]. split; [apply export_csv_three_columns|].
  split; [rewrite export_cells_meta; fixed_rows; reflexivity|].
  split; [rewrite export_cells_meta; fixed_rows; reflexivity|].
  split; [exact Tw|]. split; [exact Ts|]. split; [exact Tn|]. split; [exact Tp|].
  split; [apply export_csv_length|].
  split; [apply exported_cells_rows|apply export_csv_erase].
Qed.

(** ** Order of the requests and their spacing *)

Lemma fetch_url_state (env : Env) (u : string) (s : AS) :
  snd (fetch_url env u s) = exchanged env u (limited env s).
Proof. rewrite fetch_url_run. reflexivity. Qed.

Lemma web_analyze_state (env : Env) (c : Competitor) (s : AS) :
  snd (web_analyze env c s) = after_fetches env (fetched_by env KWeb c) s.
Proof.
  unfold web_analyze, fetched_by. destruct (url c) as [u|]; [|reflexivity].
  cbn [opt_cell after_fetches fold_left]. rewrite <- fetch_url_state.
  unfold bind, loop_time, gets. destruct (fetch_url env u s) as [[r|e] s']; reflexivity.
Qed.

Lemma seo_analyze_state (env : Env) (c : Competitor) (s : AS) :
  snd (seo_analyze env c s) = after_fetches env (fetched_by env KSeo c) s.
Proof.
  unfold seo_analyze, fetched_by. destruct (url c) as [u|]; [|reflexivity].
  cbn [opt_cell after_fetches fold_left]. rewrite <- fetch_url_state.
  unfold bind. destruct (fetch_url env u s) as [[r|e] s']; reflexivity.
Qed.

Lemma news_analyze_state (env : Env) (c : Competitor) (s : AS) :
  snd (news_analyze env c s) = after_fetches env (fetched_by env KNews c) s.
Proof.
  unfold news_analyze, fetched_by. cbn [after_fetches fold_left].
  rewrite <- fetch_url_state. unfold try_except, bind.
  destruct (fetch_url env (rss_url env c) s) as [[r|e] s']; reflexivity.
Qed.

Lemma linkedin_state (env : Env) (l : string) (s : AS) :
  snd (_analyze_linkedin env l s) = exchanged env l (limited env s).
Proof.
  unfold _analyze_linkedin. rewrite <- fetch_url_state. unfold try_except, bind.
  destruct (fetch_url env l s) as [[r|e] s']; reflexivity.
Qed.

Lemma social_analyze_state (env : Env) (c : Competitor) (s : AS) :
  snd (social_analyze env c s) = after_fetches env (fetched_by env KSocial c) s.
Proof.
  unfold social_analyze, fetched_by.
  assert (T : forall (m : M AS (list SocialProfile)) s0,
             snd ((profiles <~ m ;; ret {| profiles := profiles |}) s0) = snd (m s0)).
  { intros m s0. unfold bind. destruct (m s0) as [[r|e] s']; reflexivity. }
  unfold bind at 1.
  destruct (twitter c) as [t|]; [destruct (Py.truthy t)|]; cbn; rewrite T;
    (destruct (linkedin c) as [l|]; [destruct (Py.truthy l)|]; try reflexivity);
    cbn [after_fetches fold_left]; rewrite <- linkedin_state; unfold bind;
    destruct (_analyze_linkedin env l s) as [[r|e] s']; reflexivity.
Qed.

Lemma analyze_into_state (env : Env) (k : Kind) (c : Competitor)
  (result : AnalysisResult) (s : AS) :
  snd (analyze_into env k c result s) = after_fetches env (fetched_by env k c) s.
Proof.
  destruct k; unfold analyze_into.
  - rewrite <- web_analyze_state. unfold bind.
    destruct (web_analyze env c s) as [[r|e] s']; reflexivity.
  - rewrite <- seo_analyze_state. unfold bind.
    destruct (seo_analyze env c s) as [[r|e] s']; reflexivity.
  - rewrite <- news_analyze_state. unfold bind.
    destruct (news_analyze env c s) as [[r|e] s']; reflexivity.
  - rewrite <- social_analyze_state. unfold bind.
    destruct (social_analyze env c s) as [[r|e] s']; reflexivity.
Qed.

Lemma after_fetches_trace (env : Env) (urls : list string) (s : AS) :
  trace (snd (after_fetches env urls s))
  = (trace (snd s) ++ map (fun u => (analyzer_name (fst s), u)) urls)%list
  /\ analyzer_name (fst (after_fetches env urls s)) = analyzer_name (fst s).
Proof.
  revert s. induction urls as [|u urls IH]; intros s.
  - cbn. rewrite app_nil_r. auto.
  - change (after_fetches env (u :: urls) s)
      with (after_fetches env urls (exchanged env u (limited env s))).
    destruct (IH (exchanged env u (limited env s))) as [Ht Hn].
    rewrite Ht, Hn. split; [|reflexivity].
    unfold trace, exchanged, limited. cbn.
    destruct (_ <? _); cbn; rewrite map_app, <- app_assoc; reflexivity.
Qed.

Lemma put_analyzer_named (k : Kind) (x : Analyzer) (a : Analyzers) :
  well_named a -> analyzer_name x = kind_name k -> well_named (put_analyzer k x a).
Proof.
  intros Ha Hx k'. specialize (Ha k'). destruct k, k'; cbn in *; congruence.
Qed.

Lemma run_step_trace (env : Env) (c : Competitor) (result : AnalysisResult)
  (a : Analyzers) (w : World) (k : Kind) :
  well_named a ->
  well_named (snd (fst (run_step env c (result, a, w) k)))
  /\ trace (snd (run_step env c (result, a, w) k))
     = (trace w ++ map (fun u => (kind_name k, u)) (fetched_by env k c))%list.
Proof.
  intros Ha. unfold run_step.
  assert (Hs := analyze_into_state env k c result (analyzer_of k a, w)).
  destruct (after_fetches_trace env (fetched_by env k c) (analyzer_of k a, w)) as [Ht Hn].
  cbn [fst snd] in Ht, Hn. rewrite <- Hs in Ht, Hn. rewrite (Ha k) in Ht, Hn.
  destruct (analyze_into env k c result (analyzer_of k a, w)) as [[r|e] [a' w']];
    cbn [fst snd] in *; (split; [apply put_analyzer_named; assumption|exact Ht]).
Qed.

Lemma run_steps_trace (env : Env) (c : Competitor) (ks : list Kind)
  (result : AnalysisResult) (a : Analyzers) (w : World) :
  well_named a ->
  trace (snd (fold_left (run_step env c) ks (result, a, w)))
  = (trace w
     ++ flat_map (fun k => map (fun u => (kind_name k, u)) (fetched_by env k c)) ks)%list.
Proof.
  revert result a w. induction ks as [|k ks IH]; intros result a w Ha.
  - cbn. rewrite app_nil_r. reflexivity.
  - cbn [fold_left flat_map].
    destruct (run_step_trace env c result a w k Ha) as [Ha' Ht].
    destruct (run_step env c (result, a, w) k) as [[result' a'] w'].
    cbn [fst snd] in Ha', Ht. rewrite (IH result' a' w' Ha'), Ht, <- app_assoc.
    reflexivity.
Qed.

Lemma new_analyzer_run (nm : string) (w : World) :
  new_analyzer nm w
  = (Return {| analyzer_name := nm; _config := fst (load_config (store w));
               _last_request_time := 0 |},
     set_store (snd (load_config (store w))) w).
Proof. unfold new_analyzer. destruct (load_config (store w)); reflexivity. Qed.

Lemma new_analyzers_run (w : World) :
  exists a w',
    new_analyzers w = (Return a, w') /\ well_named a
    /\ requests w' = requests w /\ clock w' = clock w
    /\ forall k, _last_request_time (analyzer_of k a) = 0.
Proof.
  unfold new_analyzers, bind. rewrite !new_analyzer_run. cbn.
  eexists _, _. split; [reflexivity|].
  split; [intros []; reflexivity|]. split; [reflexivity|]. split; [reflexivity|].
  intros []; reflexivity.
Qed.

Lemma run_analysis_trace (env : Env) (c : Competitor) (analysis_type : option Kind)
  (run_all : bool) (w : World) :
  trace (snd (_run_analysis env c analysis_type run_all w))
  = (trace w
     ++ flat_map (fun k => map (fun u => (kind_name k, u)) (fetched_by env k c))
          (types_to_run analysis_type run_all))%list.
Proof.
  unfold _run_analysis, bind, gets.
  destruct (new_analyzers_run w) as (a & w' & Hn & Ha & Hr & _). rewrite Hn.
  match goal with
  | |- context [fold_left ?f ?ks (?r0, a, w')] =>
      assert (Ht := run_steps_trace env c ks r0 a w' Ha);
      destruct (fold_left f ks (r0, a, w')) as [[r1 a1] w1]
  end.
  cbn [fst snd] in *. rewrite Ht. unfold trace. rewrite Hr. reflexivity.
Qed.

Lemma limited_facts (env : Env) (s : AS) :
  0 <= sleep_lag env ->
  _last_request_time (fst s) + rate_limit_delay (_config (fst s)) <= clock (snd (limited env s))
  /\ clock (snd s) <= clock (snd (limited env s))
  /\ _last_request_time (fst (limited env s)) = clock (snd (limited env s))
  /\ _config (fst (limited env s)) = _config (fst s)
  /\ analyzer_name (fst (limited env s)) = analyzer_name (fst s)
  /\ requests (snd (limited env s)) = requests (snd s).
Proof.
  intros Hlag. unfold limited. cbn.
  destruct (_ <? _) eqn:E; cbn; [apply Z.ltb_lt in E|apply Z.ltb_ge in E];
    repeat split; lia.
Qed.





(** * Further properties of the package *)

(** ** config.py: the registry operations together *)

Lemma registry_default (st : Store) :
  registry st = competitors (default Config_default (config_file st)).
Proof. unfold registry. rewrite load_config_fst. reflexivity. Qed.

Lemma registry_add (c : Competitor) (st : Store) :
  registry (add_competitor c st) = <[name c := c]> (registry st).
Proof. rewrite !registry_default, add_competitor_file. reflexivity. Qed.

Lemma registry_remove (n : string) (st : Store) :
  registry (snd (remove_competitor n st)) = delete n (registry st).
Proof.
  rewrite !registry_default.
  destruct (competitors (default Config_default (config_file st)) !! n) as [c|] eqn:E.
  - rewrite (remove_competitor_present n st c E). reflexivity.
  - rewrite (remove_competitor_absent n st E). cbn. symmetry. apply delete_id. exact E.
Qed.

(** X1: after [add_competitor c], looking up the name of [c] returns [c],
    replacing whatever was stored under that name, and looking up any other
    name returns what it returned before; the file is written once. *)
Theorem add_competitor_lookup (c : Competitor) (st : Store) (n : string) :
  fst (get_competitor n (add_competitor c st))
  = (if decide (n = name c) then Some c else fst (get_competitor n st))
  /\ writes (add_competitor c st) = S (writes st).
Proof.
  split; [|destruct st as [d [cfg|] k]; reflexivity].
  rewrite !get_competitor_lookup, <- !registry_default, registry_add.
  destruct (decide (n = name c)) as [->|Hne].
  - apply lookup_insert_eq.
  - apply lookup_insert_ne. congruence.
Qed.

(** X2: adding a competitor whose name is not yet registered and then
    removing that name gives back the registry as it was. *)
Theorem add_then_remove_restores (c : Competitor) (st : Store) :
  fst (get_competitor (name c) st) = None ->
  fst (remove_competitor (name c) (add_competitor c st)) = true
  /\ registry (snd (remove_competitor (name c) (add_competitor c st))) = registry st.
Proof.
  intros H. rewrite get_competitor_lookup, <- registry_default in H. split.
  - assert (L : registry (add_competitor c st) !! name c = Some c)
      by (rewrite registry_add; apply lookup_insert_eq).
    rewrite registry_default in L.
    rewrite (remove_competitor_present _ _ _ L). reflexivity.
  - rewrite registry_remove, registry_add. rewrite delete_insert_eq.
    apply delete_id. exact H.
Qed.

Lemma add_then_remove_restores_witness :
  fst (remove_competitor "Acme" (add_competitor acme empty_store)) = true
  /\ registry (snd (remove_competitor "Acme" (add_competitor acme empty_store)))
     = registry empty_store.
Proof. apply (add_then_remove_restores acme empty_store). reflexivity. Defined.

(** X3: removing a name a second time finds nothing: the second call
    answers [False] and does not write the file. *)
Theorem remove_competitor_twice (n : string) (st : Store) :
  let st1 := snd (remove_competitor n st) in
  fst (remove_competitor n st1) = false
  /\ writes (snd (remove_competitor n st1)) = writes st1
  /\ config_file (snd (remove_competitor n st1)) = config_file st1.
Proof.
  intros st1.
  assert (L : registry st1 !! n = None)
    by (subst st1; rewrite registry_remove; apply lookup_delete_eq).
  rewrite registry_default in L. rewrite (remove_competitor_absent n st1 L).
  repeat split.
Qed.

(** X4: [list_competitors] returns exactly the competitors stored in the
    registry, one per registered name: a competitor is listed if and only if
    some name looks it up, and the list is as long as the registry has
    names. With no registry file the list is empty. *)
Theorem list_competitors_content (st : Store) :
  (forall c, In c (fst (list_competitors st))
             <-> exists n, fst (get_competitor n st) = Some c)
  /\ length (fst (list_competitors st)) = size (registry st)
  /\ (config_file st = None -> fst (list_competitors st) = []).
Proof.
  assert (E : fst (list_competitors st) = map snd (map_to_list (registry st))).
  { unfold list_competitors, registry. destruct (load_config st). reflexivity. }
  rewrite E. split; [|split].
  - intros c. rewrite in_map_iff. split.
    + intros ([n c'] & <- & H). exists n.
      rewrite get_competitor_lookup, <- registry_default.
      apply list_elem_of_In, elem_of_map_to_list in H. exact H.
    + intros (n & H). rewrite get_competitor_lookup, <- registry_default in H.
      exists (n, c). split; [reflexivity|].
      apply list_elem_of_In, elem_of_map_to_list. exact H.
  - rewrite length_map. apply length_map_to_list.
  - intros H. rewrite registry_default, H. reflexivity.
Qed.

(** X5: reading the registry never writes it: [load_config],
    [get_competitor] and [list_competitors] leave the content of the file
    and the number of writes as they were (they only make sure the
    directory exists), and with no registry file every lookup is [None]. *)
Theorem lookups_do_not_write (n : string) (st : Store) :
  (config_file (snd (load_config st)) = config_file st
   /\ writes (snd (load_config st)) = writes st)
  /\ (config_file (snd (get_competitor n st)) = config_file st
      /\ writes (snd (get_competitor n st)) = writes st)
  /\ (config_file (snd (list_competitors st)) = config_file st
      /\ writes (snd (list_competitors st)) = writes st)
  /\ config_dir (snd (get_competitor n st)) = true
  /\ (config_file st = None -> fst (get_competitor n st) = None).
Proof.
  destruct st as [d [cfg|] k]; repeat split; try reflexivity; discriminate.
Qed.

(** X6: if every entry of the registry sits under the name of its
    competitor, this is still so after [add_competitor] and after
    [remove_competitor]. *)
Theorem registry_stays_keyed_by_name (c : Competitor) (n : string) (st : Store) :
  keyed_by_name (registry st) ->
  keyed_by_name (registry (add_competitor c st))
  /\ keyed_by_name (registry (snd (remove_competitor n st))).
Proof.
  intros K. split.
  - rewrite registry_add. intros m x H.
    destruct (decide (m = name c)) as [->|Hne].
    + rewrite lookup_insert_eq in H. congruence.
    + rewrite lookup_insert_ne in H by congruence. apply K. exact H.
  - rewrite registry_remove. intros m x H.
    destruct (decide (m = n)) as [->|Hne].
    + rewrite lookup_delete_eq in H. discriminate.
    + rewrite lookup_delete_ne in H by congruence. apply K. exact H.
Qed.

Lemma registry_stays_keyed_by_name_witness :
  keyed_by_name (registry (add_competitor nosite (add_competitor acme empty_store)))
  /\ keyed_by_name (registry (snd (remove_competitor "Acme" (add_competitor acme empty_store)))).
Proof.
  split.
  - apply (registry_stays_keyed_by_name nosite "Acme" (add_competitor acme empty_store)).
    apply (registry_stays_keyed_by_name acme "Acme" empty_store).
    intros m x H. discriminate.
  - apply (registry_stays_keyed_by_name acme "Acme" (add_competitor acme empty_store)).
    apply (registry_stays_keyed_by_name acme "Acme" empty_store).
    intros m x H. discriminate.
Defined.

(** ** analyzers/base.py: the limiter and the fetch *)

(** X7: with a timer that does not oversleep, [_rate_limit] leaves the
    clock at the later of the current reading and the time of the last
    request plus the delay: it waits exactly the remainder of the delay and
    not at all when the delay has already passed. It stamps the instance
    with that reading, returns without raising and sends nothing. *)
Theorem rate_limit_waits_the_remainder (env : Env) (self : Analyzer) (w : World) :
  sleep_lag env = 0 ->
  let s' := snd (_rate_limit env (self, w)) in
  fst (_rate_limit env (self, w)) = Return tt
  /\ clock (snd s')
     = Z.max (clock w) (_last_request_time self + rate_limit_delay (_config self))
  /\ _last_request_time (fst s') = clock (snd s')
  /\ requests (snd s') = requests w
  /\ store (snd s') = store w.
Proof.
  intros Hlag s'. subst s'. rewrite rate_limit_run. unfold limited. cbn.
  destruct (_ <? _) eqn:E; cbn; [apply Z.ltb_lt in E|apply Z.ltb_ge in E];
    repeat split; lia.
Qed.

Lemma rate_limit_waits_the_remainder_witness :
  clock (snd (snd (_rate_limit demo_env
                     (set_last_request_time 4700 (fresh "web"), world0)))) = 5700
  /\ clock (snd (snd (_rate_limit demo_env (fresh "web", world0)))) = 5000.
Proof.
  split.
  - destruct (rate_limit_waits_the_remainder demo_env
                (set_last_request_time 4700 (fresh "web")) world0 eq_refl)
      as (_ & H & _).
    exact H.
  - destruct (rate_limit_waits_the_remainder demo_env (fresh "web") world0 eq_refl)
      as (_ & H & _).
    exact H.
Defined.

Lemma limited_facts_any (env : Env) (s : AS) :
  analyzer_name (fst (limited env s)) = analyzer_name (fst s)
  /\ requests (snd (limited env s)) = requests (snd s).
Proof. unfold limited. cbn. destruct (_ <? _); split; reflexivity. Qed.

(** X8: [fetch_url] returns the response exactly when the transport
    delivers one with a status from 200 to 299; it raises the transport
    error when the transport fails and the status error, carrying the
    status, for any other status. In every case one request, and only one,
    has been sent to the address, and nothing is retried. *)
Theorem fetch_url_outcome (env : Env) (u : string) (s : AS) :
  (forall r, fst (fetch_url env u s) = Return r
             <-> snd (http_get env u) = Some r
                 /\ 200 <= status_code r < 300)
  /\ (fst (fetch_url env u s) = Raise TransportError <-> snd (http_get env u) = None)
  /\ (forall st, fst (fetch_url env u s) = Raise (HTTPStatusError st)
                 <-> exists r, snd (http_get env u) = Some r
                               /\ status_code r = st
                               /\ ~ (200 <= st < 300))
  /\ exists t,
       requests (snd (snd (fetch_url env u s)))
       = (requests (snd s)
          ++ [{| req_time := t; req_by := analyzer_name (fst s); req_url := u |}])%list.
Proof.
  rewrite fetch_url_run. cbn [fst snd].
  assert (S : forall r, is_success r = true <-> 200 <= status_code r < 300).
  { intros r. unfold is_success. rewrite andb_true_iff, Z.leb_le, Z.ltb_lt. tauto. }
  split; [|split; [|split]].
  - intros r. destruct (snd (http_get env u)) as [r'|].
    + destruct (is_success r') eqn:E.
      * split; [intros H; injection H as ->; split; [reflexivity|apply S, E]|].
        intros [H _]. congruence.
      * split; [discriminate|]. intros [H1 H2]. injection H1 as ->.
        apply S in H2. congruence.
    + split; [discriminate|]. intros [H _]. discriminate.
  - destruct (snd (http_get env u)) as [r'|].
    + destruct (is_success r'); split; discriminate.
    + split; reflexivity.
  - intros st. destruct (snd (http_get env u)) as [r'|].
    + destruct (is_success r') eqn:E.
      * split; [discriminate|]. intros (r & H1 & H2 & H3). injection H1 as ->.
        subst st. apply S in E. contradiction.
      * split.
        -- intros H. injection H as <-. exists r'. repeat split.
           intros H. apply S in H. congruence.
        -- intros (r & H1 & H2 & _). injection H1 as ->. subst st. reflexivity.
    + split; [discriminate|]. intros (r & H & _). discriminate.
  - destruct (limited_facts_any env s) as (Hn & Hr).
    eexists. unfold exchanged. cbn [snd requests set_clock log_request].
    rewrite Hr, Hn. reflexivity.
Qed.

(** ** cli.py: what a run does to the world *)

Lemma run_step_world (env : Env) (c : Competitor) (result : AnalysisResult)
  (a : Analyzers) (w : World) (k : Kind) :
  snd (run_step env c (result, a, w) k)
  = snd (after_fetches env (fetched_by env k c) (analyzer_of k a, w)).
Proof.
  unfold run_step. rewrite <- (analyze_into_state env k c result).
  destruct (analyze_into env k c result (analyzer_of k a, w)) as [[r|e] [a' w']];
    reflexivity.
Qed.

Section Invariant.

Variable env : Env.
Variable P : World -> Prop.
Hypothesis P_fetch : forall u a w, P w -> P (snd (exchanged env u (limited env (a, w)))).
Hypothesis P_load : forall w, P w -> P (set_store (snd (load_config (store w))) w).

Lemma after_fetches_keeps (urls : list string) (s : AS) :
  P (snd s) -> P (snd (after_fetches env urls s)).
Proof.
  revert s. induction urls as [|u urls IH]; intros s H; [exact H|].
  change (after_fetches env (u :: urls) s)
    with (after_fetches env urls (exchanged env u (limited env s))).
  apply IH. destruct s as [a w]. apply P_fetch. exact H.
Qed.

Lemma run_steps_keep (c : Competitor) (ks : list Kind) (result : AnalysisResult)
  (a : Analyzers) (w : World) :
  P w -> P (snd (fold_left (run_step env c) ks (result, a, w))).
Proof.
  revert result a w. induction ks as [|k ks IH]; intros result a w H; [exact H|].
  cbn [fold_left]. assert (Hw := run_step_world env c result a w k).
  destruct (run_step env c (result, a, w) k) as [[r1 a1] w1]. cbn [snd] in Hw.
  apply IH. rewrite Hw. apply after_fetches_keeps. exact H.
Qed.

Lemma new_analyzers_keep (w : World) : P w -> P (snd (new_analyzers w)).
Proof.
  intros H. unfold new_analyzers, bind. rewrite !new_analyzer_run. cbn [snd].
  do 4 apply P_load. exact H.
Qed.

(** A property of the world that each fetch and each reading of the
    configuration keep is kept by a whole run. *)
Lemma run_analysis_keeps (c : Competitor) (analysis_type : option Kind)
  (run_all : bool) (w : World) :
  P w -> P (snd (_run_analysis env c analysis_type run_all w)).
Proof.
  intros H. unfold _run_analysis, bind, gets.
  assert (Hn := new_analyzers_keep w H).
  destruct (new_analyzers_run w) as (a & w' & E & _). rewrite E in Hn |- *.
  cbn [snd] in Hn.
  match goal with
  | |- context [fold_left ?f ?ks (?r0, a, w')] =>
      assert (Hk := run_steps_keep c ks r0 a w' Hn);
      destruct (fold_left f ks (r0, a, w')) as [[r1 a1] w1]
  end.
  exact Hk.
Qed.

End Invariant.

(** X9: a run never writes the registry: whatever the kinds requested and
    whatever the network does, the content of the registry file and the
    number of writes are after the run what they were before; the run only
    makes sure the configuration directory exists. *)
Theorem run_never_writes_registry (env : Env) (c : Competitor)
  (analysis_type : option Kind) (run_all : bool) (w : World) :
  let w' := snd (_run_analysis env c analysis_type run_all w) in
  config_file (store w') = config_file (store w)
  /\ writes (store w') = writes (store w).
Proof.
  intros w'. subst w'.
  apply (run_analysis_keeps env
           (fun w' => config_file (store w') = config_file (store w)
                      /\ writes (store w') = writes (store w))).
  - intros u a w0 H. unfold exchanged, limited. cbn. destruct (_ <? _); exact H.
  - intros w0 [H1 H2]. cbn. destruct (load_config_file (store w0)) as [E1 E2].
    rewrite E1, E2. auto.
  - auto.
Qed.

Lemma log_in_order_step (env : Env) (u : string) (a : Analyzer) (w : World) :
  0 <= sleep_lag env -> 0 <= fst (http_get env u) ->
  log_in_order w ->
  log_in_order (snd (exchanged env u (limited env (a, w))))
  /\ clock w <= clock (snd (exchanged env u (limited env (a, w)))).
Proof.
  intros Hlag Hlat [Hb Hs].
  destruct (limited_facts env (a, w) Hlag) as (_ & Hc & _ & _ & _ & Hr).
  cbn [fst snd] in Hc, Hr.
  set (l := limited env (a, w)) in *.
  unfold exchanged, log_in_order. cbn [snd clock requests set_clock log_request].
  rewrite Hr. split; [split|lia].
  - intros r Hin. apply in_app_iff in Hin. destruct Hin as [Hin|[<-|[]]].
    + specialize (Hb r Hin). lia.
    + cbn [req_time]. lia.
  - intros i j r1 r2 Hij H1 H2.
    apply lookup_app_Some in H1, H2.
    destruct H1 as [H1|[L1 H1]], H2 as [H2|[L2 H2]].
    + exact (Hs i j r1 r2 Hij H1 H2).
    + apply list_lookup_singleton_Some in H2. destruct H2 as [_ <-]. cbn [req_time].
      assert (Hin : In r1 (requests w))
        by (apply list_elem_of_In, list_elem_of_lookup; eauto).
      specialize (Hb r1 Hin). lia.
    + apply lookup_lt_Some in H2. lia.
    + apply list_lookup_singleton_Some in H1, H2.
      destruct H1 as [_ <-], H2 as [_ <-]. lia.
Qed.

(** X10: when the timer does not undersleep and no exchange takes negative
    time, a run started on a log in order never moves the clock back and
    leaves the log in order: every request carries a time no later than the
    clock and the requests are listed by time of issue. *)
Theorem run_keeps_log_in_order (env : Env) (c : Competitor)
  (analysis_type : option Kind) (run_all : bool) (w : World) :
  0 <= sleep_lag env ->
  (forall u, 0 <= fst (http_get env u)) ->
  log_in_order w ->
  let w' := snd (_run_analysis env c analysis_type run_all w) in
  clock w <= clock w' /\ log_in_order w'.
Proof.
  intros Hlag Hlat H w'. subst w'.
  apply (run_analysis_keeps env (fun w' => clock w <= clock w' /\ log_in_order w')).
  - intros u a w0 [H1 H2].
    destruct (log_in_order_step env u a w0 Hlag (Hlat u) H2) as [H3 H4].
    split; [lia|exact H3].
  - intros w0 H0. exact H0.
  - split; [lia|exact H].
Qed.

Lemma run_keeps_log_in_order_witness :
  clock world0 <= clock (snd (_run_analysis demo_env acme_li None true world0))
  /\ log_in_order (snd (_run_analysis demo_env acme_li None true world0)).
Proof.
  apply (run_keeps_log_in_order demo_env acme_li None true world0).
  - cbn. lia.
  - intros u. cbn. lia.
  - split; [intros r []|]. intros i j r1 r2 _ H. cbn in H. discriminate.
Defined.

(** ** cli.py: which slots of the result a run fills *)

Lemma kind_eqb_eq (a b : Kind) : kind_eqb a b = true <-> a = b.
Proof. destruct a, b; cbn; split; congruence. Qed.

Lemma linkedin_returns (env : Env) (l : string) (s : AS) :
  exists p, fst (_analyze_linkedin env l s) = Return (Some p)
            /\ platform p = "linkedin" /\ handle p = l.
Proof.
  unfold _analyze_linkedin, try_except, bind, ret. rewrite fetch_url_run.
  destruct (snd (http_get env l)) as [r|]; [destruct (is_success r)|];
    eexists; repeat split.
Qed.

Lemma social_analyze_run (env : Env) (c : Competitor) (s : AS) :
  social_analyze env c s
  = match linkedin_address c with
    | Some l =>
        (match fst (_analyze_linkedin env l s) with
         | Return p => Return {| profiles := append_profile (twitter_profiles c) p |}
         | Raise e => Raise e
         end,
         snd (_analyze_linkedin env l s))
    | None => (Return {| profiles := twitter_profiles c |}, s)
    end.
Proof.
  unfold social_analyze, linkedin_address, twitter_profiles, bind, _analyze_twitter, ret.
  destruct (twitter c) as [t|]; [destruct (Py.truthy t)|];
    (destruct (linkedin c) as [l|]; [destruct (Py.truthy l)|]);
    cbn; try reflexivity;
    destruct (_analyze_linkedin env l s) as [[x|e] s1]; reflexivity.
Qed.

Lemma social_analyze_returns (env : Env) (c : Competitor) (s : AS) :
  exists r, fst (social_analyze env c s) = Return r.
Proof.
  rewrite social_analyze_run. destruct (linkedin_address c) as [l|].
  - destruct (linkedin_returns env l s) as (p & H & _). cbn [fst]. rewrite H.
    eexists. reflexivity.
  - eexists. reflexivity.
Qed.

Lemma web_analyze_cases (env : Env) (c : Competitor) (s : AS) :
  match fst (web_analyze env c s) with
  | Return (Some _) => site_answers env c = true
  | Return None => url c = None
  | Raise _ => site_answers env c = false /\ url c <> None
  end.
Proof.
  unfold web_analyze, site_answers. destruct (url c) as [u|]; [|reflexivity].
  unfold bind, loop_time, gets, ret. rewrite fetch_url_run.
  destruct (snd (http_get env u)) as [r|]; [destruct (is_success r) eqn:E|]; cbn;
    try split; congruence.
Qed.

Lemma seo_analyze_cases (env : Env) (c : Competitor) (s : AS) :
  match fst (seo_analyze env c s) with
  | Return (Some _) => site_answers env c = true
  | Return None => url c = None
  | Raise _ => site_answers env c = false /\ url c <> None
  end.
Proof.
  unfold seo_analyze, site_answers. destruct (url c) as [u|]; [|reflexivity].
  unfold bind, ret. rewrite fetch_url_run.
  destruct (snd (http_get env u)) as [r|]; [destruct (is_success r) eqn:E|]; cbn;
    try split; congruence.
Qed.

Lemma site_answers_url (env : Env) (c : Competitor) :
  url c = None -> site_answers env c = false.
Proof. intros H. unfold site_answers. rewrite H. reflexivity. Qed.

Lemma run_step_slots (env : Env) (c : Competitor) (result : AnalysisResult)
  (a : Analyzers) (w : World) (k : Kind) :
  let r1 := fst (fst (run_step env c (result, a, w) k)) in
  (has_slot k result = false -> has_slot k r1 = yields env c k)
  /\ (forall k', kind_eqb k' k = false -> has_slot k' r1 = has_slot k' result)
  /\ competitor_name r1 = competitor_name result
  /\ analyzed_at r1 = analyzed_at result.
Proof.
  unfold run_step. set (s := (analyzer_of k a, w)).
  destruct k; unfold analyze_into, bind, ret.
  - assert (H := web_analyze_cases env c s).
    destruct (web_analyze env c s) as [[[r|]|e] [a' w']]; cbn [fst snd] in *.
    + repeat split; [intros _; cbn; auto|intros [] Hk; try discriminate; reflexivity].
    + repeat split; [intros _; cbn; rewrite site_answers_url; auto
                    |intros [] Hk; try discriminate; reflexivity].
    + destruct H as [H _]. repeat split. intros Hs. cbn [yields]. congruence.
  - assert (H := seo_analyze_cases env c s).
    destruct (seo_analyze env c s) as [[[r|]|e] [a' w']]; cbn [fst snd] in *.
    + repeat split; [intros _; cbn; auto|intros [] Hk; try discriminate; reflexivity].
    + repeat split; [intros _; cbn; rewrite site_answers_url; auto
                    |intros [] Hk; try discriminate; reflexivity].
    + destruct H as [H _]. repeat split. intros Hs. cbn [yields]. congruence.
  - destruct (news_analyze_returns env c s) as [r H].
    destruct (news_analyze env c s) as [[r'|e] [a' w']]; cbn [fst snd] in *;
      [|discriminate].
    repeat split; [intros [] Hk; try discriminate; reflexivity].
  - destruct (social_analyze_returns env c s) as [r H].
    destruct (social_analyze env c s) as [[r'|e] [a' w']]; cbn [fst snd] in *;
      [|discriminate].
    repeat split; [intros [] Hk; try discriminate; reflexivity].
Qed.

Lemma run_steps_slots (env : Env) (c : Competitor) (ks : list Kind)
  (result : AnalysisResult) (a : Analyzers) (w : World) :
  NoDup ks ->
  (forall k, In k ks -> has_slot k result = false) ->
  let r := fst (fst (fold_left (run_step env c) ks (result, a, w))) in
  (forall k, has_slot k r
             = if existsb (kind_eqb k) ks then yields env c k else has_slot k result)
  /\ competitor_name r = competitor_name result
  /\ analyzed_at r = analyzed_at result.
Proof.
  revert result a w. induction ks as [|k0 ks IH]; intros result a w Hnd Hempty.
  - cbn. auto.
  - cbn [fold_left]. apply NoDup_cons in Hnd. destruct Hnd as [Hnotin Hnd].
    destruct (run_step_slots env c result a w k0) as (Hown & Hother & Hname & Hat).
    destruct (run_step env c (result, a, w) k0) as [[r1 a1] w1]. cbn [fst] in *.
    assert (Hempty1 : forall k, In k ks -> has_slot k r1 = false).
    { intros k Hk. rewrite Hother; [apply Hempty; right; exact Hk|].
      destruct (kind_eqb k k0) eqn:E; [|reflexivity].
      apply kind_eqb_eq in E. subst k. exfalso. apply Hnotin, list_elem_of_In, Hk. }
    destruct (IH r1 a1 w1 Hnd Hempty1) as (Hslots & Hname' & Hat').
    split; [|split; congruence].
    intros k. rewrite Hslots. cbn [existsb].
    destruct (kind_eqb k k0) eqn:E.
    + apply kind_eqb_eq in E. subst k. cbn [orb].
      replace (existsb (kind_eqb k0) ks) with false.
      * apply Hown, Hempty. left. reflexivity.
      * symmetry. apply not_true_is_false. intros H. apply existsb_exists in H.
        destruct H as (x & Hx & Hxe). apply kind_eqb_eq in Hxe. subst x.
        apply Hnotin, list_elem_of_In, Hx.
    + cbn [orb]. destruct (existsb (kind_eqb k) ks); [reflexivity|].
      apply Hother. exact E.
Qed.

(** X11: a run returns a result for the competitor it was given, and fills
    the slot of a kind exactly when that kind was requested and its analysis
    yields a result: the news and social slots whenever they are requested,
    the web and SEO slots when moreover the site is configured and answers
    with a success. A kind that was not requested, or whose analyzer raised,
    leaves its slot empty and does not keep the other kinds from running. *)
Theorem run_fills_requested_slots (env : Env) (c : Competitor)
  (analysis_type : option Kind) (run_all : bool) (w : World) :
  exists r,
    fst (_run_analysis env c analysis_type run_all w) = Return r
    /\ competitor_name r = name c
    /\ analyzed_at r = datetime_now env (clock w)
    /\ forall k, has_slot k r
                 = existsb (kind_eqb k) (types_to_run analysis_type run_all)
                   && yields env c k.
Proof.
  unfold _run_analysis, bind, gets.
  destruct (new_analyzers_run w) as (a & w' & E & _). rewrite E.
  match goal with
  | |- context [fold_left ?f ?ks (?r0, a, w')] =>
      assert (H := run_steps_slots env c ks r0 a w');
      destruct (fold_left f ks (r0, a, w')) as [[r1 a1] w1]
  end.
  cbn [fst snd] in H. exists r1. split; [reflexivity|].
  destruct H as (Hs & Hn & Ha).
  - unfold types_to_run. destruct run_all; [|destruct analysis_type].
    + repeat constructor; cbn; rewrite ?list_elem_of_In; cbn; intuition discriminate.
    + repeat constructor. intros H. inversion H.
    + constructor.
  - intros k _. destruct k; reflexivity.
  - split; [exact Hn|]. split; [exact Ha|]. intros k. rewrite Hs.
    destruct (existsb _ _); [reflexivity|]. destruct k; reflexivity.
Qed.

Lemma fetched_by_at_most_one (env : Env) (k : Kind) (c : Competitor) :
  (length (fetched_by env k c) <= 1)%nat.
Proof.
  destruct k; cbn; try lia.
  - destruct (url c); cbn; lia.
  - destruct (url c); cbn; lia.
  - destruct (linkedin c) as [l|]; [destruct (Py.truthy l)|]; cbn; lia.
Qed.

(** X12: a run sends at most one request for each kind it runs, so at most
    four with [--all], one with a single kind and none when nothing is
    requested; the requests it sends are added after those already in the
    log, which it leaves as they were. *)
Theorem run_sends_one_request_per_kind_at_most (env : Env) (c : Competitor)
  (analysis_type : option Kind) (run_all : bool) (w : World) :
  let w' := snd (_run_analysis env c analysis_type run_all w) in
  (exists sent, requests w' = (requests w ++ sent)%list
                /\ (length sent <= length (types_to_run analysis_type run_all))%nat
                /\ (length sent <= 4)%nat)
  /\ (analysis_type = None -> run_all = false -> requests w' = requests w).
Proof.
  intros w'. subst w'.
  assert (Hpre : exists sent,
             requests (snd (_run_analysis env c analysis_type run_all w))
             = (requests w ++ sent)%list).
  { apply (run_analysis_keeps env (fun w' => exists sent, requests w' = (requests w ++ sent)%list)).
    - intros u a w0 [sent H]. destruct (limited_facts_any env (a, w0)) as [_ Hr].
      unfold exchanged. cbn [snd requests set_clock log_request]. rewrite Hr. cbn [snd].
      rewrite H. eexists. rewrite <- app_assoc. reflexivity.
    - intros w0 H. exact H.
    - exists []. rewrite app_nil_r. reflexivity. }
  destruct Hpre as [sent Hsent].
  assert (Hlen : (length sent <= length (types_to_run analysis_type run_all))%nat).
  { assert (T := run_analysis_trace env c analysis_type run_all w).
    apply (f_equal (@length _)) in T. unfold trace in T.
    rewrite length_app, !length_map, Hsent, length_app in T.
    assert (B : forall ks,
               (length (flat_map (fun k => map (fun u => (kind_name k, u))
                                              (fetched_by env k c)) ks)
                <= length ks)%nat).
    { induction ks as [|k ks IH]; [cbn; lia|]. cbn [flat_map]. rewrite length_app, length_map.
      assert (F := fetched_by_at_most_one env k c). cbn [length]. lia. }
    specialize (B (types_to_run analysis_type run_all)). lia. }
  split.
  - exists sent. split; [exact Hsent|]. split; [exact Hlen|].
    assert ((length (types_to_run analysis_type run_all) <= 4)%nat)
      by (unfold types_to_run; destruct run_all, analysis_type; cbn; lia).
    lia.
  - intros -> ->. cbn in Hlen. destruct sent; [|cbn in Hlen; lia].
    rewrite Hsent, app_nil_r. reflexivity.
Qed.

(** ** analyzers: which failures reach the caller *)

(** X13: the web and SEO analyzers let a failed fetch of the site through
    to their caller, and raise in no other case; the news and social
    analyzers return a result in every case. *)
Theorem analyzers_failure_policy (env : Env) (c : Competitor) (s : AS) :
  (forall e, fst (web_analyze env c s) = Raise e
             <-> exists u, url c = Some u /\ fst (fetch_url env u s) = Raise e)
  /\ (forall e, fst (seo_analyze env c s) = Raise e
                <-> exists u, url c = Some u /\ fst (fetch_url env u s) = Raise e)
  /\ (exists r, fst (news_analyze env c s) = Return r)
  /\ (exists r, fst (social_analyze env c s) = Return r).
Proof.
  split; [|split; [|split]].
  - intros e. unfold web_analyze. destruct (url c) as [u|].
    + unfold bind, loop_time, gets, ret. cbn beta iota.
      destruct (fetch_url env u s) as [[r|e'] s'] eqn:E; cbn [fst snd]; split.
      * intros H. discriminate H.
      * intros (u' & Hu & H). injection Hu as <-. rewrite E in H. discriminate H.
      * intros H. exists u. split; [reflexivity|]. rewrite E. cbn [fst].
        injection H as ->. reflexivity.
      * intros (u' & Hu & H). injection Hu as <-. rewrite E in H. cbn [fst] in H.
        injection H as ->. reflexivity.
    + split; [intros H; discriminate H|]. intros (u & H & _). discriminate H.
  - intros e. unfold seo_analyze. destruct (url c) as [u|].
    + unfold bind, ret.
      destruct (fetch_url env u s) as [[r|e'] s'] eqn:E; cbn [fst snd]; split.
      * intros H. discriminate H.
      * intros (u' & Hu & H). injection Hu as <-. rewrite E in H. discriminate H.
      * intros H. exists u. split; [reflexivity|]. rewrite E. cbn [fst].
        injection H as ->. reflexivity.
      * intros (u' & Hu & H). injection Hu as <-. rewrite E in H. cbn [fst] in H.
        injection H as ->. reflexivity.
    + split; [intros H; discriminate H|]. intros (u & H & _). discriminate H.
  - apply news_analyze_returns.
  - apply social_analyze_returns.
Qed.

(** ** analyzers/web.py: the measured load time *)

(** X14: the load time the web analyzer reports is the time from before
    the rate limiter to after the response: with a timer that does not
    oversleep, it is the wait the limiter imposes (what is left of the delay
    since the last request of the instance, if anything) plus the time of
    the exchange. *)
Theorem web_load_time_includes_wait (env : Env) (c : Competitor) (u : string)
  (self : Analyzer) (w : World) (response : Response) :
  url c = Some u ->
  snd (http_get env u) = Some response ->
  is_success response = true ->
  sleep_lag env = 0 ->
  exists r,
    fst (web_analyze env c (self, w)) = Return (Some r)
    /\ load_time_ms r
       = Z.max 0 (_last_request_time self + rate_limit_delay (_config self) - clock w)
         + fst (http_get env u)
    /\ load_time_ms r = clock (snd (snd (web_analyze env c (self, w)))) - clock w.
Proof.
  intros Hu Hg Hs Hlag. unfold web_analyze. rewrite Hu.
  unfold bind, loop_time, gets, ret. cbn [fst snd]. rewrite fetch_url_run, Hg, Hs.
  cbn [fst snd]. eexists. split; [reflexivity|]. cbn [load_time_ms].
  unfold exchanged, limited. cbn.
  destruct (_ <? _) eqn:E; cbn; [apply Z.ltb_lt in E|apply Z.ltb_ge in E]; split; lia.
Qed.

Lemma web_load_time_includes_wait_witness :
  exists r,
    fst (web_analyze demo_env acme (set_last_request_time 4700 (fresh "web"), world0))
    = Return (Some r)
    /\ load_time_ms r = 750.
Proof.
  destruct (web_load_time_includes_wait demo_env acme "https://acme.test"
              (set_last_request_time 4700 (fresh "web")) world0 (ok_response "page")
              eq_refl eq_refl eq_refl eq_refl) as (r & Hr & Hl & _).
  exists r. split; [exact Hr|exact Hl].
Defined.

(** ** analyzers/news.py: counting and snippets *)

Lemma length_parse_items (env : Env) (l : list Element) :
  length (flat_map (parse_item env) l) = length (List.filter complete_item l).
Proof.
  induction l as [|item l IH]; [reflexivity|].
  cbn [flat_map List.filter]. rewrite length_app, IH.
  unfold parse_item, complete_item.
  destruct (ET.find "title" item), (ET.find "link" item); reflexivity.
Qed.

(** X15: when the feed is fetched and parses to a document with a channel,
    the total of mentions is the number of the channel's items that have
    both a title and a link (the others are passed over and not counted),
    and the items returned are the first twenty of those, in feed order. *)
Theorem news_counts_complete_items (env : Env) (c : Competitor) (s : AS)
  (response : Response) (root channel : Element) :
  fst (fetch_url env (rss_url env c) s) = Return response ->
  fromstring env (resp_text response) = Some root ->
  ET.find "channel" root = Some channel ->
  exists r,
    fst (news_analyze env c s) = Return r
    /\ total_mentions r
       = Z.of_nat (length (List.filter complete_item (ET.findall "item" channel)))
    /\ items r = take 20 (flat_map (parse_item env) (ET.findall "item" channel))
    /\ length (items r)
       = Nat.min 20 (length (List.filter complete_item (ET.findall "item" channel)))
    /\ Z.of_nat (length (items r)) <= total_mentions r.
Proof.
  intros Hf Hr Hc. unfold news_analyze, try_except, bind, ret.
  destruct (fetch_url env (rss_url env c) s) as [[resp|e] s']; cbn [fst] in Hf;
    [|discriminate].
  injection Hf as ->. eexists. split; [reflexivity|].
  cbn [items total_mentions]. unfold _parse_rss, len. rewrite Hr, Hc.
  rewrite length_take, length_parse_items. repeat split. lia.
Qed.

Lemma news_counts_complete_items_witness :
  exists r,
    fst (news_analyze demo_env acme (fresh "news", world0)) = Return r
    /\ total_mentions r = 2
    /\ length (items r) = 2%nat.
Proof.
  destruct (news_counts_complete_items demo_env acme (fresh "news", world0)
              (ok_response "feed") acme_feed acme_channel eq_refl eq_refl eq_refl)
    as (r & Hr & Ht & _ & Hl & _).
  exists r. split; [exact Hr|]. split; [exact Ht|exact Hl].
Defined.

Lemma length_py_take (n : nat) (s : string) : (String.length (Py.take n s) <= n)%nat.
Proof.
  revert s. induction n as [|n IH]; intros s; [cbn; lia|].
  destruct s as [|c s]; cbn; [lia|]. specialize (IH s). lia.
Qed.

Lemma strip_tags_aux_length (s : string) :
  (String.length (fst (strip_tags_aux s)) <= String.length s)%nat
  /\ (forall x, snd (strip_tags_aux s) = Some x ->
                (String.length x <= String.length s)%nat).
Proof.
  induction s as [|c r [IHg IHh]]; [cbn; split; [lia|discriminate]|].
  cbn [strip_tags_aux]. destruct (strip_tags_aux r) as [gr hr]. cbn [fst snd] in *.
  split.
  - cbn [String.length].
    destruct (Ascii.eqb c "<"); [|cbn; lia].
    destruct r as [|c2 r2]; [cbn in *; lia|].
    destruct (Ascii.eqb c2 ">"); [cbn in *; lia|].
    destruct hr as [x|]; [specialize (IHh x eq_refl); cbn in *; lia|cbn in *; lia].
  - intros x Hx. cbn [String.length]. destruct (Ascii.eqb c ">").
    + injection Hx as <-. lia.
    + specialize (IHh x Hx). lia.
Qed.

Lemma strip_tags_plain (s : string) :
  Py.contains "<" s = false -> strip_tags s = s.
Proof.
  unfold strip_tags. induction s as [|c r IH]; [reflexivity|].
  change (Py.contains "<" (String c r))
    with (String.prefix "<" (String c r) || Py.contains "<" r).
  intros H. apply orb_false_elim in H. destruct H as [Hp Hc].
  specialize (IH Hc). cbn [strip_tags_aux].
  destruct (strip_tags_aux r) as [gr hr]. cbn [fst] in *. subst gr.
  assert (E : Ascii.eqb c "<" = false).
  { destruct (Ascii.eqb c "<") eqn:E; [|reflexivity].
    apply Ascii.eqb_eq in E. subst c. cbn in Hp. destruct r; discriminate. }
  rewrite E. reflexivity.
Qed.

(** X16: every snippet of a parsed news item has at most 200 characters.
    Removing the tags from a description never makes it longer and leaves a
    description without any "<" as it is. *)
Theorem snippets_are_short (env : Env) (xml_content : string) :
  (forall it sn, In it (_parse_rss env xml_content) -> snippet it = Some sn ->
                 (String.length sn <= 200)%nat)
  /\ (forall t, (String.length (strip_tags t) <= String.length t)%nat)
  /\ (forall t, Py.contains "<" t = false -> strip_tags t = t).
Proof.
  split; [|split; [intros t; exact (proj1 (strip_tags_aux_length t))
                  |apply strip_tags_plain]].
  intros it sn Hin Hs. unfold _parse_rss in Hin.
  destruct (fromstring env xml_content) as [root|]; [|destruct Hin].
  destruct (ET.find "channel" root) as [channel|]; [|destruct Hin].
  apply in_flat_map in Hin. destruct Hin as (item & _ & Hin).
  unfold parse_item in Hin.
  destruct (ET.find "title" item) as [te|]; [|destruct Hin].
  destruct (ET.find "link" item) as [le|]; [|destruct Hin].
  destruct Hin as [<-|[]]. cbn [snippet] in Hs.
  destruct (ET.find "description" item) as [e|]; [|discriminate].
  destruct (ET.text e) as [t|]; [|discriminate].
  destruct (Py.truthy t); [|discriminate].
  assert (E : sn = Py.take 200 (strip_tags t)) by congruence.
  rewrite E. apply length_py_take.
Qed.

(** ** analyzers/seo.py: the open-graph dict and the structured data *)

Lemma dict_set_lookup (k v k' : string) (d : list (string * string)) :
  Soup.lookup_attr k' (dict_set k v d)
  = if String.eqb k k' then Some v else Soup.lookup_attr k' d.
Proof.
  induction d as [|[k0 v0] d IH]; cbn [dict_set Soup.lookup_attr].
  - destruct (String.eqb k k'); reflexivity.
  - destruct (String.eqb k0 k) eqn:E0.
    + apply String.eqb_eq in E0. subst k0. cbn [Soup.lookup_attr].
      destruct (String.eqb k k'); reflexivity.
    + cbn [Soup.lookup_attr]. rewrite IH.
      destruct (String.eqb k0 k') eqn:E1; [|reflexivity].
      apply String.eqb_eq in E1. subst k'.
      rewrite String.eqb_sym, E0. reflexivity.
Qed.

Lemma dict_set_keys (k v : string) (d : list (string * string)) :
  map fst (dict_set k v d)
  = if existsb (String.eqb k) (map fst d) then map fst d else (map fst d ++ [k])%list.
Proof.
  induction d as [|[k0 v0] d IH]; [reflexivity|].
  cbn [dict_set map fst existsb]. rewrite (String.eqb_sym k k0).
  destruct (String.eqb k0 k) eqn:E0.
  - apply String.eqb_eq in E0. subst k0. reflexivity.
  - cbn [map fst orb]. rewrite IH. destruct (existsb _ _); reflexivity.
Qed.

Lemma dict_set_nodup (k v : string) (d : list (string * string)) :
  NoDup (map fst d) -> NoDup (map fst (dict_set k v d)).
Proof.
  intros H. rewrite dict_set_keys. destruct (existsb _ _) eqn:E; [exact H|].
  apply NoDup_app. split; [exact H|]. split; [|repeat constructor; intros X; inversion X].
  intros x Hx Hk. apply list_elem_of_singleton in Hk. subst x.
  apply not_true_iff_false in E. apply E, existsb_exists. exists k.
  split; [apply list_elem_of_In, Hx|apply String.eqb_refl].
Qed.

Lemma dict_set_in (k v k' v' : string) (d : list (string * string)) :
  In (k', v') (dict_set k v d) -> (k' = k /\ v' = v) \/ In (k', v') d.
Proof.
  induction d as [|[k0 v0] d IH]; cbn [dict_set].
  - intros [H|[]]. left. split; congruence.
  - destruct (String.eqb k0 k).
    + intros [H|H]; [left; split; congruence|right; right; exact H].
    + intros [H|H]; [right; left; exact H|].
      destruct (IH H) as [?|?]; [left; assumption|right; right; assumption].
Qed.

Lemma collect_og_tags_fold (soup : node) :
  collect_og_tags soup
  = fold_left (fun og og_tag =>
                 let prop := get_or_empty og_tag "property" in
                 let cont := get_or_empty og_tag "content" in
                 if Py.truthy prop && Py.truthy cont then dict_set prop cont og else og)
              (og_metas soup) [].
Proof. reflexivity. Qed.

Lemma og_fold_facts (tags : list node) (d : list (string * string)) (p : string) :
  (forall n, In n tags ->
             Py.truthy (get_or_empty n "property") = true ->
             String.prefix "og:" (get_or_empty n "property") = true) ->
  let d' := fold_left (fun og og_tag =>
                         let prop := get_or_empty og_tag "property" in
                         let cont := get_or_empty og_tag "content" in
                         if Py.truthy prop && Py.truthy cont
                         then dict_set prop cont og else og) tags d in
  (NoDup (map fst d) -> NoDup (map fst d'))
  /\ (forall k v, In (k, v) d' ->
        In (k, v) d \/ (String.prefix "og:" k = true /\ v <> ""))
  /\ Soup.lookup_attr p d'
     = fold_left (fun acc t =>
                    if Py.truthy (get_or_empty t "property")
                       && Py.truthy (get_or_empty t "content")
                       && String.eqb (get_or_empty t "property") p
                    then Some (get_or_empty t "content") else acc)
                 tags (Soup.lookup_attr p d).
Proof.
  revert d. induction tags as [|t tags IH]; intros d Hog; cbn zeta.
  - cbn. auto.
  - cbn [fold_left].
    assert (Hog' : forall n, In n tags ->
                     Py.truthy (get_or_empty n "property") = true ->
                     String.prefix "og:" (get_or_empty n "property") = true)
      by (intros n Hn; apply Hog; right; exact Hn).
    destruct (Py.truthy (get_or_empty t "property")) eqn:Tp;
      [destruct (Py.truthy (get_or_empty t "content")) eqn:Tc|]; cbn [andb].
    + destruct (IH (dict_set (get_or_empty t "property") (get_or_empty t "content") d) Hog')
        as (N & I & L).
      split; [|split].
      * intros Hd. apply N, dict_set_nodup, Hd.
      * intros k v Hin. destruct (I k v Hin) as [Hin'|?]; [|right; assumption].
        apply dict_set_in in Hin'. destruct Hin' as [[-> ->]|?]; [|left; assumption].
        right. split; [apply Hog; [left; reflexivity|exact Tp]|].
        intros E. rewrite E in Tc. discriminate.
      * refine (eq_trans L _). rewrite dict_set_lookup. reflexivity.
    + apply (IH d Hog').
    + apply (IH d Hog').
Qed.

(** X17: the open-graph tags of the SEO result form a dict: no property
    occurs twice, every property starts with [og:] and every value is not
    empty; and the value under a property is the content of the last [meta]
    tag of the page with that property and some content, so a later tag
    overrides an earlier one. *)
Theorem og_tags_keep_the_last (soup : node) :
  NoDup (map fst (collect_og_tags soup))
  /\ (forall k v, In (k, v) (collect_og_tags soup) ->
        String.prefix "og:" k = true /\ v <> "")
  /\ (forall p, Soup.lookup_attr p (collect_og_tags soup)
                = last_content p (og_metas soup)).
Proof.
  rewrite collect_og_tags_fold.
  assert (Hog : forall n, In n (og_metas soup) ->
                  Py.truthy (get_or_empty n "property") = true ->
                  String.prefix "og:" (get_or_empty n "property") = true).
  { intros n Hn _. unfold og_metas, Soup.find_all_where in Hn.
    apply filter_In in Hn. destruct Hn as [_ Hn]. apply andb_true_iff in Hn.
    destruct Hn as [_ Hn]. unfold get_or_empty.
    destruct (Soup.get n "property"); [exact Hn|discriminate]. }
  split; [|split].
  - destruct (og_fold_facts (og_metas soup) [] "" Hog) as (N & _ & _).
    apply N. constructor.
  - intros k v Hin. destruct (og_fold_facts (og_metas soup) [] "" Hog) as (_ & I & _).
    destruct (I k v Hin) as [[]|H]. exact H.
  - intros p. destruct (og_fold_facts (og_metas soup) [] p Hog) as (_ & _ & L).
    exact L.
Qed.

(** X18: the structured data of the SEO result are the decoded contents of
    JSON-LD scripts of the page, at most five of them; a script whose content
    does not decode contributes nothing and does not make the analysis
    fail. *)
Theorem structured_data_bounded (env : Env) (soup : node) :
  (length (structured_data (seo_of_soup env soup)) <= 5)%nat
  /\ (forall d, In d (structured_data (seo_of_soup env soup)) ->
        exists script,
          In script (Soup.find_all_where "script"
                       (Soup.attr_is "type" "application/ld+json") soup)
          /\ json_loads env (Py.or_empty (Soup.string_of script)) = Some d)
  /\ ((forall script,
         In script (Soup.find_all_where "script"
                      (Soup.attr_is "type" "application/ld+json") soup) ->
         json_loads env (Py.or_empty (Soup.string_of script)) = None) ->
      structured_data (seo_of_soup env soup) = []).
Proof.
  cbn [structured_data seo_of_soup]. split; [rewrite length_take; lia|]. split.
  - intros d Hd. apply list_elem_of_In, elem_of_take in Hd. destruct Hd as (i & Hd & _).
    apply list_elem_of_lookup_2, list_elem_of_In in Hd.
    unfold collect_structured_data in Hd. apply in_flat_map in Hd.
    destruct Hd as (script & Hs & Hd). exists script. split; [exact Hs|].
    destruct (json_loads env _) as [x|]; [|destruct Hd].
    destruct Hd as [<-|[]]. reflexivity.
  - intros Hnone. unfold collect_structured_data.
    replace (flat_map _ _) with (@nil json); [reflexivity|]. symmetry.
    induction (Soup.find_all_where "script" _ soup) as [|x l IH]; [reflexivity|].
    cbn [flat_map]. rewrite (Hnone x) by (left; reflexivity). cbn [app].
    apply IH. intros y Hy. apply Hnone. right. exact Hy.
Qed.

(** ** analyzers/social.py *)

Lemma lstrip_char_done (x : ascii) (h : string) :
  String.prefix (String x "") (Py.lstrip_char x h) = false.
Proof.
  induction h as [|c h IH]; [reflexivity|].
  cbn [Py.lstrip_char]. destruct (Ascii.eqb c x) eqn:E; [exact IH|].
  cbn. destruct (ascii_dec x c) as [->|_]; [|reflexivity].
  rewrite Ascii.eqb_refl in E. discriminate.
Qed.

(** X19: for a Twitter handle the analyzer sends no request and leaves the
    state as it is; the profile it returns has the handle with exactly one
    leading [@] (the result is the same whether or not the configured handle
    starts with [@]) and no follower, following or post count, no bio and
    the verified flag off. *)
Theorem twitter_handle_normalised (h : string) (s : AS) :
  exists p,
    _analyze_twitter h s = (Return (Some p), s)
    /\ platform p = "twitter"
    /\ handle p = "@" +:+ Py.lstrip_char "@" h
    /\ String.prefix "@" (Py.lstrip_char "@" h) = false
    /\ _analyze_twitter ("@" +:+ h) s = _analyze_twitter h s
    /\ followers p = None /\ following p = None /\ posts_count p = None
    /\ bio p = None /\ verified p = false.
Proof.
  eexists. split; [reflexivity|]. cbn [platform handle SocialProfile_default].
  split; [reflexivity|]. split; [reflexivity|].
  split; [apply lstrip_char_done|]. repeat split.
Qed.

(** X20: for a LinkedIn address the analyzer always returns a profile, with
    the platform [linkedin] and the address as handle, after sending one
    request to that address; when the fetch fails the profile carries nothing
    else, and a bio, when there is one, has at most 200 characters. The
    counts are never filled. *)
Theorem linkedin_profile_survives_failure (env : Env) (l : string) (s : AS) :
  exists p,
    fst (_analyze_linkedin env l s) = Return (Some p)
    /\ platform p = "linkedin" /\ handle p = l
    /\ followers p = None /\ following p = None /\ posts_count p = None
    /\ verified p = false
    /\ ((forall r, fst (fetch_url env l s) <> Return r) -> bio p = None)
    /\ (forall b, bio p = Some b -> (String.length b <= 200)%nat)
    /\ snd (_analyze_linkedin env l s) = snd (fetch_url env l s).
Proof.
  unfold _analyze_linkedin, try_except, bind, ret.
  destruct (fetch_url env l s) as [[r|e] s'] eqn:E; cbn [fst snd].
  - eexists. split; [reflexivity|]. cbn [platform handle followers following
      posts_count verified bio]. repeat split.
    + intros H. exfalso. apply (H r). reflexivity.
    + intros b Hb. unfold about_bio in Hb.
      destruct (Soup.find_where "section" _ _) as [sec|]; [|discriminate].
      assert (Eb : b = Py.take 200 (Soup.get_text_strip sec)) by congruence.
      rewrite Eb. apply length_py_take.
  - eexists. split; [reflexivity|]. cbn. repeat split. intros b Hb. discriminate.
Qed.

(** X21: the social analyzer returns on every input; it lists the Twitter
    profile first, when a handle is configured, and the LinkedIn profile
    second, when an address is configured, so at most two profiles; with no
    LinkedIn address it sends no request. *)
Theorem social_lists_configured_profiles (env : Env) (c : Competitor) (s : AS) :
  exists r,
    fst (social_analyze env c s) = Return r
    /\ map platform (profiles r)
       = (map platform (twitter_profiles c)
          ++ match linkedin_address c with Some _ => ["linkedin"] | None => [] end)%list
    /\ (length (profiles r) <= 2)%nat
    /\ (forall p, In p (profiles r) -> platform p = "linkedin" ->
                  Some (handle p) = linkedin_address c)
    /\ (linkedin_address c = None -> snd (social_analyze env c s) = s).
Proof.
  rewrite social_analyze_run.
  assert (T : (length (twitter_profiles c) <= 1)%nat
              /\ forall p, In p (twitter_profiles c) -> platform p = "twitter").
  { unfold twitter_profiles. destruct (twitter c) as [t|]; [destruct (Py.truthy t)|];
      cbn; (split; [lia|]); intros p Hp; try destruct Hp as [<-|[]]; try destruct Hp;
      reflexivity. }
  destruct T as [T1 T2].
  destruct (linkedin_address c) as [l|].
  - destruct (linkedin_profile_survives_failure env l s) as (p & H & Hp & Hh & _).
    cbn [fst snd]. rewrite H. eexists. split; [reflexivity|].
    cbn [profiles append_profile]. rewrite map_app, length_app. cbn [map length].
    rewrite Hp. split; [reflexivity|]. split; [lia|]. split; [|discriminate].
    intros q Hq Hl. apply in_app_iff in Hq. destruct Hq as [Hq|[<-|[]]].
    + rewrite (T2 q Hq) in Hl. discriminate.
    + rewrite Hh. reflexivity.
  - eexists. split; [reflexivity|]. cbn [profiles fst snd]. rewrite app_nil_r.
    split; [reflexivity|]. split; [lia|]. split; [|reflexivity].
    intros q Hq Hl. rewrite (T2 q Hq) in Hl. discriminate.
Qed.

(** ** exporters.py: where the repeated fields land *)

Lemma lookup_enumerate {A} (l : list A) (i : nat) (x : A) :
  l !! i = Some x -> In (i, x) (enumerate l).
Proof.
  intros H. apply list_elem_of_In, list_elem_of_lookup. exists i.
  unfold enumerate. rewrite list_lookup_imap, H. reflexivity.
Qed.

(** X22: each repeated field of a result is written under its own numbered
    label: the heading at position [i] (from 0) of the web result is the
    value of the row "Heading i+1" when [i < 10], an H1 text is the value of
    the row "H1 i+1" at any position, an H2 text that of "H2 i+1" when
    [i < 5], each open-graph pair is a row "OG: property", and the news item
    at position [i < 10] gives the three rows "Article i+1 Title", "URL" and
    "Source". *)
Theorem export_csv_labels_repeated_fields (env : Env) (r : AnalysisResult) :
  (forall w i h, web r = Some w -> headings w !! i = Some h -> (i < 10)%nat ->
     In ["Web"; numbered "Heading" i ""; h] (export_csv env r))
  /\ (forall s i h, seo r = Some s -> h1_tags s !! i = Some h ->
        In ["SEO"; numbered "H1" i ""; h] (export_csv env r))
  /\ (forall s i h, seo r = Some s -> h2_tags s !! i = Some h -> (i < 5)%nat ->
        In ["SEO"; numbered "H2" i ""; h] (export_csv env r))
  /\ (forall s k v, seo r = Some s -> In (k, v) (og_tags s) ->
        In ["SEO"; "OG: " +:+ k; v] (export_csv env r))
  /\ (forall n i it, news r = Some n -> items n !! i = Some it -> (i < 10)%nat ->
        In ["News"; numbered "Article" i " Title"; item_title it] (export_csv env r)
        /\ In ["News"; numbered "Article" i " URL"; item_url it] (export_csv env r)
        /\ In ["News"; numbered "Article" i " Source"; Py.or_empty (source it)]
              (export_csv env r)).
Proof.
  unfold export_csv. split; [|split; [|split; [|split]]].
  - intros w i h Hw Hh Hi. rewrite Hw. cbn [section_rows].
    apply in_or_app. right. apply in_or_app. left. unfold web_rows.
    apply in_or_app. right. apply in_map_iff. exists (i, h). split; [reflexivity|].
    apply lookup_enumerate. rewrite lookup_take_lt by exact Hi. exact Hh.
  - intros s i h Hs Hh. rewrite Hs. cbn [section_rows].
    apply in_or_app. right. apply in_or_app. right. apply in_or_app. left.
    unfold seo_rows. apply in_or_app. right. apply in_or_app. left.
    apply in_map_iff. exists (i, h). split; [reflexivity|].
    apply lookup_enumerate. exact Hh.
  - intros s i h Hs Hh Hi. rewrite Hs. cbn [section_rows].
    apply in_or_app. right. apply in_or_app. right. apply in_or_app. left.
    unfold seo_rows. apply in_or_app. right. apply in_or_app. right.
    apply in_or_app. left.
    apply in_map_iff. exists (i, h). split; [reflexivity|].
    apply lookup_enumerate. rewrite lookup_take_lt by exact Hi. exact Hh.
  - intros s k v Hs Hin. rewrite Hs. cbn [section_rows].
    apply in_or_app. right. apply in_or_app. right. apply in_or_app. left.
    unfold seo_rows. apply in_or_app. right. apply in_or_app. right.
    apply in_or_app. right.
    apply in_map_iff. exists (k, v). split; [reflexivity|exact Hin].
  - intros n i it Hn Hit Hi. rewrite Hn. cbn [section_rows].
    assert (E : In (i, it) (enumerate (take 10 (items n))))
      by (apply lookup_enumerate; rewrite lookup_take_lt by exact Hi; exact Hit).
    repeat split;
      (do 3 (apply in_or_app; right); apply in_or_app; left; unfold news_rows; right;
       apply in_flat_map; exists (i, it); split; [exact E|]).
    + left. reflexivity.
    + right. left. reflexivity.
    + right. right. left. reflexivity.
Qed.

(** ** analyzers/web.py: bounds on the web result *)

Lemma detect_in_table (soup : node) (html tech : string) :
  In tech (_detect_technologies soup html) -> In tech (map fst tech_signatures).
Proof.
  unfold _detect_technologies.
  rewrite <- list_elem_of_In, elem_of_elements, elem_of_list_to_set, list_elem_of_In.
  unfold detected. rewrite in_flat_map. intros ([t sigs] & Hin & H).
  destruct (existsb _ sigs); [|destruct H]. destruct H as [<-|[]].
  apply in_map_iff. exists (t, sigs). split; [reflexivity|exact Hin].
Qed.

(** X23: when the site is fetched, the web result keeps within these
    bounds: at most twenty headings; a link count equal to the number of [a]
    tags carrying an [href], so at most the number of [a] tags; an image
    count that is the number of [img] tags; technologies that are names of
    the signature table, each once, so at most ten; and a page size that is
    the length of the body. *)
Theorem web_result_bounds (env : Env) (c : Competitor) (u : string) (s : AS)
  (response : Response) :
  url c = Some u ->
  fst (fetch_url env u s) = Return response ->
  let soup := BeautifulSoup env (resp_text response) in
  exists r,
    fst (web_analyze env c s) = Return (Some r)
    /\ (length (headings r) <= 20)%nat
    /\ links_count r
       = Z.of_nat (length (List.filter (Soup.has_attr "href") (Soup.find_all "a" soup)))
    /\ 0 <= links_count r <= Z.of_nat (length (Soup.find_all "a" soup))
    /\ images_count r = Z.of_nat (length (Soup.find_all "img" soup))
    /\ (forall t, In t (technologies r) -> In t (map fst tech_signatures))
    /\ NoDup (technologies r)
    /\ (length (technologies r) <= 10)%nat
    /\ page_size_bytes r = Z.of_nat (String.length (content response)).
Proof.
  intros Hu Hf soup. unfold web_analyze. rewrite Hu. unfold bind, loop_time, gets.
  cbn beta iota.
  destruct (fetch_url env u s) as [[resp|e] s']; cbn [fst] in Hf; [|discriminate].
  injection Hf as ->. eexists. split; [reflexivity|].
  cbn [headings links_count images_count technologies page_size_bytes]. fold soup.
  assert (Ht : forall t, In t (_detect_technologies soup (resp_text response)) ->
                         In t (map fst tech_signatures))
    by (intros t; apply detect_in_table).
  assert (Hn : NoDup (_detect_technologies soup (resp_text response)))
    by apply NoDup_elements.
  assert (Hl : Soup.find_all_where "a" (Soup.has_attr "href") soup
               = List.filter (Soup.has_attr "href") (Soup.find_all "a" soup)).
  { unfold Soup.find_all_where, Soup.find_all.
    induction (Soup.descendants soup) as [|n l IH]; [reflexivity|].
    cbn [List.filter]. destruct (Soup.is_tag "a" n); cbn [andb List.filter];
      [destruct (Soup.has_attr "href" n)|]; rewrite IH; reflexivity. }
  split; [rewrite length_take; lia|]. split; [|split; [|split; [reflexivity|]]].
  - unfold len. rewrite Hl. reflexivity.
  - unfold len. rewrite Hl. split; [lia|]. apply inj_le.
    clear Hl. induction (Soup.find_all "a" soup) as [|n l IH]; [cbn; lia|].
    cbn [List.filter]. destruct (Soup.has_attr "href" n); cbn [length] in *; lia.
  - split; [exact Ht|]. split; [exact Hn|]. split.
    + change 10%nat with (length (map fst tech_signatures)).
      apply NoDup_incl_length; [apply NoDup_ListNoDup, Hn|exact Ht].
    + unfold len. f_equal. induction (content response) as [|ch t IH]; [reflexivity|].
      cbn. rewrite IH. reflexivity.
Qed.

Lemma web_result_bounds_witness :
  exists r,
    fst (web_analyze demo_env acme (fresh "web", world0)) = Return (Some r)
    /\ (length (headings r) <= 20)%nat
    /\ page_size_bytes r = 4.
Proof.
  destruct (web_result_bounds demo_env acme "https://acme.test" (fresh "web", world0)
              (ok_response "page") eq_refl eq_refl)
    as (r & Hr & Hh & _ & _ & _ & _ & _ & _ & Hp).
  exists r. split; [exact Hr|]. split; [exact Hh|exact Hp].
Defined.
